(** * AWS billing line parser: [AWSBillingExtractorV2._parse_lines_to_csv_data]

    A shallow embedding of the flat-record parser of
    [aws_billing_extractor.py] and the properties of it that the
    specification states.

    Text is modelled as lists of 8-bit characters: a Python [str] whose code
    points are all below 256.  The character classes of [str.strip] and of the
    [re] module ([\s], [\d], [\w]) are the Unicode ones restricted to that
    range. *)

From Stdlib Require Import String Ascii List Bool Arith Lia ZArith QArith SpecFloat.
Import ListNotations.

Local Close Scope Q_scope.
Local Close Scope Z_scope.
Local Open Scope string_scope.
Local Open Scope nat_scope.
Local Open Scope list_scope.
Local Open Scope bool_scope.

(** ** Text *)

Definition str := list ascii.

Definition lit (s : string) : str := list_ascii_of_string s.
Coercion lit : string >-> str.

Definition code (c : ascii) : nat := nat_of_ascii c.

Definition str_eqb (a b : str) : bool :=
  if list_eq_dec ascii_dec a b then true else false.

(** Python truthiness of a string: [if s:]. *)
Definition truthy (s : str) : bool :=
  match s with [] => false | _ :: _ => true end.

(** [str.isspace] on one character, i.e. [Py_UNICODE_ISSPACE]: TAB, LF, VT, FF,
    CR, the separators 0x1c-0x1f, SPACE, NEL (0x85) and NBSP (0xa0). *)
Definition is_space (c : ascii) : bool :=
  let n := code c in
  ((9 <=? n) && (n <=? 13)) || ((28 <=? n) && (n <=? 32))
  || (n =? 133) || (n =? 160).

(** [\d]: a decimal digit; below 256 these are '0'..'9' only. *)
Definition is_digit (c : ascii) : bool :=
  let n := code c in (48 <=? n) && (n <=? 57).

(** [\w]: an alphanumeric character or the underscore.  Below 256 the
    alphanumerics are the ASCII letters and digits, the letters 0xaa, 0xb5,
    0xba, 0xc0-0xd6, 0xd8-0xf6, 0xf8-0xff and the numeric characters 0xb2,
    0xb3, 0xb9, 0xbc-0xbe. *)
Definition is_word (c : ascii) : bool :=
  let n := code c in
  ((48 <=? n) && (n <=? 57)) || ((65 <=? n) && (n <=? 90))
  || ((97 <=? n) && (n <=? 122)) || (n =? 95)
  || (n =? 170) || (n =? 178) || (n =? 179) || (n =? 181) || (n =? 185)
  || (n =? 186) || ((188 <=? n) && (n <=? 190))
  || ((192 <=? n) && (n <=? 214)) || ((216 <=? n) && (n <=? 246))
  || (248 <=? n).

Definition is_char (x : string) (c : ascii) : bool :=
  match x with
  | String d EmptyString => if ascii_dec c d then true else false
  | _ => false
  end.

(** [s.startswith(p)] *)
Fixpoint startswith (s p : str) {struct p} : bool :=
  match p, s with
  | [], _ => true
  | _ :: _, [] => false
  | d :: p', c :: s' => if ascii_dec c d then startswith s' p' else false
  end.

(** [p in s] *)
Fixpoint contains (p s : str) : bool :=
  startswith s p ||
  match s with
  | [] => false
  | _ :: s' => contains p s'
  end.

Fixpoint lstrip (s : str) : str :=
  match s with
  | c :: s' => if is_space c then lstrip s' else s
  | [] => []
  end.

Definition rstrip (s : str) : str := rev (lstrip (rev s)).

(** [s.strip()] *)
Definition strip (s : str) : str := rstrip (lstrip s).

(** [s.replace(x, '')] for a one-character [x]. *)
Definition remove_char (x : string) (s : str) : str :=
  filter (fun c => negb (is_char x c)) s.

(** [s.split(sep)] for a non-empty [sep]: the occurrences of [sep] are found
    from the left without overlap.  [skip] counts the characters of an
    occurrence still to be passed over. *)
Fixpoint split_from (sep s : str) (skip : nat) : list str :=
  match s with
  | [] => [[]]
  | c :: s' =>
      match skip with
      | S k => split_from sep s' k
      | O =>
          if startswith s sep then [] :: split_from sep s' (length sep - 1)
          else match split_from sep s' 0 with
               | p :: ps => (c :: p) :: ps
               | [] => [[c]]
               end
      end
  end.

Definition split (sep s : str) : list str := split_from sep s 0.

(** [s.rfind(sep)]: the highest index at which [sep] occurs. *)
Fixpoint rfind (sep s : str) : option nat :=
  match s with
  | [] => if startswith [] sep then Some 0 else None
  | _ :: s' =>
      match rfind sep s' with
      | Some k => Some (S k)
      | None => if startswith s sep then Some 0 else None
      end
  end.

(** [s.rsplit(sep, 1)]: cut once, at the last occurrence of [sep]. *)
Definition rsplit1 (sep s : str) : list str :=
  match rfind sep s with
  | Some k => [firstn k s; skipn (k + length sep) s]
  | None => [s]
  end.

(** ** Exceptions *)

Inductive exn := IndexError | ValueError.

(** The outcome of running Python code: a value, a raised exception, or a loop
    cut off by the iteration bound of the model. *)
Inductive outcome (A : Type) : Type :=
| Ok (a : A)
| Raise (e : exn)
| OutOfFuel.

Arguments Ok {A} a.
Arguments Raise {A} e.
Arguments OutOfFuel {A}.

Definition bind {A B : Type} (m : outcome A) (k : A -> outcome B) : outcome B :=
  match m with
  | Ok a => k a
  | Raise e => Raise e
  | OutOfFuel => OutOfFuel
  end.

Notation "x <- m ;; k" := (bind m (fun x => k))
  (at level 61, m at next level, right associativity).

(** [parts[n]] for [n >= 0] *)
Definition item (parts : list str) (n : nat) : outcome str :=
  match nth_error parts n with
  | Some p => Ok p
  | None => Raise IndexError
  end.

(** [parts[-1]] *)
Definition last_item (parts : list str) : outcome str :=
  match rev parts with
  | p :: _ => Ok p
  | [] => Raise IndexError
  end.

(** ** Regular expressions

    The two patterns of the parser are sequences of character classes under a
    greedy quantifier, so the matcher covers exactly that shape: each element
    first takes the longest run it can and gives characters back one at a
    time, as the backtracking matcher of [re] does. *)

Inductive quant := Plus | Star | Opt.

Definition element : Type := (ascii -> bool) * quant.

Fixpoint run_length (p : ascii -> bool) (s : str) : nat :=
  match s with
  | c :: s' => if p c then S (run_length p s') else 0
  | [] => 0
  end.

Definition at_least (q : quant) : nat :=
  match q with Plus => 1 | _ => 0 end.

Definition at_most (q : quant) (run : nat) : nat :=
  match q with Opt => Nat.min run 1 | _ => run end.

(** Try the counts [n], [n-1], ..., [lo] in that order. *)
Fixpoint backtrack {A : Type} (k : nat -> option A) (lo n : nat) : option A :=
  if n <? lo then None
  else match k n with
       | Some r => Some r
       | None => match n with
                 | O => None
                 | S n' => backtrack k lo n'
                 end
       end.

(** [$]: the end of the text, or just before a newline that ends it. *)
Definition at_end (s : str) : bool :=
  match s with
  | [] => true
  | [c] => code c =? 10
  | _ => false
  end.

(** Match the elements at the start of [s]; the result is the number of
    characters each element took. *)
Fixpoint match_here (re : list element) (anchored : bool) (s : str)
  : option (list nat) :=
  match re with
  | [] => if anchored then (if at_end s then Some [] else None) else Some []
  | (p, q) :: re' =>
      backtrack
        (fun j => option_map (cons j) (match_here re' anchored (skipn j s)))
        (at_least q) (at_most q (run_length p s))
  end.

(** [re.search]: the match at the leftmost position that has one. *)
Fixpoint search_from (re : list element) (anchored : bool) (s : str) (pos : nat)
  : option (nat * list nat) :=
  match match_here re anchored s with
  | Some ls => Some (pos, ls)
  | None =>
      match s with
      | [] => None
      | _ :: s' => search_from re anchored s' (S pos)
      end
  end.

Definition search (re : list element) (anchored : bool) (s : str) :=
  search_from re anchored s 0.

Definition digit_or_comma (c : ascii) : bool := is_digit c || is_char "," c.

Definition unit_char (c : ascii) : bool :=
  is_word c || is_char "-" c || is_char "/" c.

(** The quantity pattern: group 1 is [[\d,]+], an optional point and [\d]
    repeated; then [\s] repeated; group 2 is [[\w\-\/]+]; then [$]. *)
Definition qty_re : list element :=
  [(digit_or_comma, Plus); (is_char ".", Opt); (is_digit, Star);
   (is_space, Star); (unit_char, Plus)].

(** The amount pattern: [[\d,]+], an optional point and [\d] repeated. *)
Definition amount_re : list element :=
  [(digit_or_comma, Plus); (is_char ".", Opt); (is_digit, Star)].

Record qty_match := { m_start : nat; group1 : str; group2 : str }.

Definition search_qty (s : str) : option qty_match :=
  match search qty_re true s with
  | Some (start, [a; b; c; d; e]) =>
      Some {| m_start := start;
              group1 := firstn (a + b + c) (skipn start s);
              group2 := firstn e (skipn (start + a + b + c + d) s) |}
  | _ => None
  end.

(** [match.group()] of a search for [amount_re] in [s]. *)
Definition search_amount (s : str) : option str :=
  match search amount_re false s with
  | Some (start, ls) => Some (firstn (list_sum ls) (skipn start s))
  | None => None
  end.

(** ** Numbers

    A Python [float] is a binary64 number, here a [spec_float] of the Standard
    Library with 53 bits of precision and exponents up to 1024.  [float(s)]
    on a plain decimal numeral (digits with an optional point) answers the
    binary64 nearest to the number, ties to even, and infinity when the
    number is too large: the numeral is the quotient of its digits by a
    power of ten, rounded once by [SFdiv].  The other forms [float] accepts
    (sign, exponent, surrounding blanks, underscores, [inf], [nan]) are
    answered with [ValueError] here; the parser never passes one
    ([parse_amount_ok] below). *)

Definition digit_value (c : ascii) : N := N.of_nat (code c - 48).

Definition digits_value (s : str) : N :=
  fold_left (fun acc c => (10 * acc + digit_value c)%N) s 0%N.

Fixpoint pow10 (n : nat) : positive :=
  match n with
  | O => 1%positive
  | S k => (10 * pow10 k)%positive
  end.

(** The binary64 nearest to [n / 10^k]. *)
Definition binary64_of_decimal (n : N) (k : nat) : spec_float :=
  match n with
  | N0 => S754_zero false
  | Npos p =>
      SFdiv 53 1024 (S754_finite false p 0) (S754_finite false (pow10 k) 0)
  end.

Definition float (s : str) : outcome spec_float :=
  let n := run_length is_digit s in
  let whole := firstn n s in
  match skipn n s with
  | [] =>
      if truthy whole then Ok (binary64_of_decimal (digits_value whole) 0)
      else Raise ValueError
  | c :: frac =>
      if is_char "." c && forallb is_digit frac && (truthy whole || truthy frac)
      then Ok (binary64_of_decimal (digits_value (whole ++ frac)) (length frac))
      else Raise ValueError
  end.

(** The floats [12.0], [1.0] and [0.125]. *)
Definition float_12 : spec_float := S754_finite false 6755399441055744 (-49).
Definition float_1 : spec_float := S754_finite false 4503599627370496 (-52).
Definition float_0_125 : spec_float := S754_finite false 4503599627370496 (-55).

(** ** Records and vocabularies *)

(** One row of [csv_data]: the dictionary with the keys ['Service'], ['Region'],
    ['Description'], ['Usage_Quantity'], ['Usage_Unit'], ['Amount'] and
    ['Amount_Unit']. *)
Record UsageRecord := {
  Service : str;
  Region : str;
  Description : str;
  Usage_Quantity : str;
  Usage_Unit : str;
  Amount : spec_float;
  Amount_Unit : str
}.

Definition SERVICE_KEYWORDS : list str :=
  map lit
  ["Elastic Container Service"; "Simple Storage Service"; "Elastic Compute Cloud";
   "Relational Database Service"; "Glue"; "DynamoDB"; "Virtual Private Cloud";
   "Data Transfer"; "Athena"; "Lambda"; "Elastic Load Balancing"; "Kinesis";
   "CloudWatch"; "EC2 Container Registry"; "Key Management Service";
   "Elastic File System"; "S3 Glacier Deep Archive"; "Secrets Manager";
   "Route 53"; "Cost Explorer"; "Simple Email Service"; "Simple Queue Service";
   "Certificate Manager"; "Simple Notification Service"; "CloudFront";
   "Savings Plans"; "Tax"; "Support"].

Definition REGION_KEYWORDS : list str :=
  map lit
  ["Asia Pacific (Seoul)"; "Asia Pacific (Tokyo)"; "Asia Pacific (Singapore)";
   "Asia Pacific (Mumbai)"; "Asia Pacific (Hong Kong)"; "Asia Pacific (Osaka)";
   "Asia Pacific (Sydney)"; "Asia Pacific (Jakarta)";
   "US East (N. Virginia)"; "US East (Ohio)"; "US West (Oregon)";
   "US West (N. California)"; "EU (Ireland)"; "EU (Frankfurt)"; "EU (London)";
   "EU (Paris)"; "EU (Stockholm)"; "EU (Milan)"; "South America (Sao Paulo)";
   "Canada (Central)"; "Middle East (Bahrain)"; "Africa (Cape Town)";
   "Any"; "Global"].

(** ** The classifiers *)

(** The loop of [is_service_header] over the keywords still to be tried.  The
    Python function answers [(svc, total)] or [(None, None)]. *)
Fixpoint service_header_in (keywords : list str) (line : str)
  : outcome (option str * option str) :=
  match keywords with
  | [] => Ok (None, None)
  | svc :: keywords' =>
      if startswith line svc && contains "USD" line then
        let parts := split "USD" line in
        if 2 <=? length parts then
          p <- last_item parts ;;
          Ok (Some svc, Some (lit "USD" ++ strip p))
        else service_header_in keywords' line
      else service_header_in keywords' line
  end.

Definition is_service_header (line : str) := service_header_in SERVICE_KEYWORDS line.

Fixpoint region_header_in (keywords : list str) (line : str)
  : outcome (option str * option str) :=
  match keywords with
  | [] => Ok (None, None)
  | region :: keywords' =>
      if startswith line region then
        if contains "USD" line then
          p <- last_item (split "USD" line) ;;
          Ok (Some region, Some (lit "USD" ++ strip p))
        else Ok (Some region, Some [])
      else region_header_in keywords' line
  end.

Definition is_region_header (line : str) := region_header_in REGION_KEYWORDS line.

Definition parse_amount (amount_str : str) : outcome spec_float :=
  if negb (truthy amount_str) then Ok (S754_zero false)
  else match search_amount (remove_char "," amount_str) with
       | Some m => float (remove_char "," m)
       | None => Ok (S754_zero false)
       end.

(** Truthiness of a name that is [None] or a string. *)
Definition named (o : option str) : bool :=
  match o with
  | Some s => truthy s
  | None => false
  end.

(** [o or ''] *)
Definition or_empty (o : option str) : str :=
  match o with
  | Some s => s
  | None => []
  end.

Definition sub_service_prefix (line : str) : bool :=
  startswith line "Amazon " || startswith line "AWS "
  || startswith line "EBS " || startswith line "Bandwidth "
  || contains "Elastic Load Balancing -" line.

(** ** The parse loop *)

(** The local variables of [_parse_lines_to_csv_data] that the loop updates. *)
Record state := {
  csv_data : list UsageRecord;
  current_service : option str;
  current_service_total : option str;
  current_region : option str;
  current_sub_service : option str
}.

Definition initial : state :=
  {| csv_data := [];
     current_service := None;
     current_service_total := Some [];
     current_region := None;
     current_sub_service := None |}.

Definition enter_service (st : state) (name total : option str) : state :=
  {| csv_data := csv_data st;
     current_service := name;
     current_service_total := total;
     current_region := None;
     current_sub_service := None |}.

Definition enter_region (st : state) (name : option str) : state :=
  {| csv_data := csv_data st;
     current_service := current_service st;
     current_service_total := current_service_total st;
     current_region := name;
     current_sub_service := None |}.

Definition enter_sub_service (st : state) (name : str) : state :=
  {| csv_data := csv_data st;
     current_service := current_service st;
     current_service_total := current_service_total st;
     current_region := current_region st;
     current_sub_service := Some name |}.

Definition append_record (st : state) (r : UsageRecord) : state :=
  {| csv_data := csv_data st ++ [r];
     current_service := current_service st;
     current_service_total := current_service_total st;
     current_region := current_region st;
     current_sub_service := current_sub_service st |}.

(** The usage-line branch: the body of the last [if "USD" in line:]. *)
Definition usage_line (st : state) (service line : str) : outcome state :=
  let parts := rsplit1 "USD" line in
  p0 <- item parts 0 ;;
  let left_part := strip p0 in
  amount <- (if 1 <? length parts
             then p1 <- item parts 1 ;; Ok (lit "USD" ++ strip p1)
             else Ok []) ;;
  let '(qty, unit, desc) :=
    match search_qty left_part with
    | Some m => (group1 m, group2 m, strip (firstn (m_start m) left_part))
    | None => ([], [], left_part)
    end in
  if truthy desc && truthy amount then
    a <- parse_amount amount ;;
    Ok (append_record st
          {| Service := service;
             Region := or_empty (current_region st);
             Description := desc;
             Usage_Quantity := qty;
             Usage_Unit := unit;
             Amount := a;
             Amount_Unit := "USD" |})
  else Ok st.

(** One pass through the body of the [while] loop at index [i] on
    [line = lines[i]]: the next index and the updated variables. *)
Definition iteration (i : nat) (st : state) (line : str) : outcome (nat * state) :=
  if negb (truthy line) then Ok (S i, st)
  else if contains "Charges by service" line then Ok (S i, st)
  else
    hdr <- is_service_header line ;;
    let '(svc_name, svc_total) := hdr in
    if named svc_name then Ok (S i, enter_service st svc_name svc_total)
    else
      match current_service st with
      | Some service =>
          if truthy service then
            rhdr <- is_region_header line ;;
            let '(region_name, region_total) := rhdr in
            if named region_name then Ok (S i, enter_region st region_name)
            else if sub_service_prefix line then
              if contains "USD" line then
                p0 <- item (rsplit1 "USD" line) 0 ;;
                Ok (S i, enter_sub_service st (strip p0))
              else Ok (S i, st)
            else if contains "USD" line then
              st' <- usage_line st service line ;;
              Ok (S i, st')
            else Ok (S i, st)
          else Ok (S i, st)
      | None => Ok (S i, st)
      end.

(** [while i < len(lines)]: at most [fuel] passes through the body. *)
Fixpoint loop (fuel : nat) (lines : list str) (i : nat) (st : state)
  : outcome (list UsageRecord) :=
  if i <? length lines then
    match fuel with
    | O => OutOfFuel
    | S fuel' =>
        line <- item lines i ;;
        next <- iteration i st line ;;
        loop fuel' lines (fst next) (snd next)
    end
  else Ok (csv_data st).

Definition _parse_lines_to_csv_data (lines : list str) : outcome (list UsageRecord) :=
  loop (length lines) lines 0 initial.

(** The lines that the loop does not skip outright: the two tests at the top
    of its body drop empty lines and lines with the marker. *)
Definition normalized (lines : list str) : list str :=
  filter (fun line => truthy line && negb (contains "Charges by service" line)) lines.

(** ** Notions used by the properties *)

(** A float that is neither negative nor NaN: +0.0, a positive finite number
    or +inf. *)
Definition nonnegative (f : spec_float) : Prop :=
  match f with
  | S754_zero false | S754_infinity false | S754_finite false _ _ => True
  | _ => False
  end.

(** The number that a finite float is, exactly. *)
Definition float_value (f : spec_float) : option Q :=
  match f with
  | S754_zero _ => Some 0%Q
  | S754_finite s m e =>
      Some ((if s then - inject_Z (Zpos m) else inject_Z (Zpos m)) * Qpower 2 e)%Q
  | _ => None
  end.

(** The amount written in a text without commas: the first run of digits with,
    if a point follows it, the point and the digits after it, as the nearest
    binary64; [0.0] when the text has no digit. *)
Fixpoint from_first_digit (s : str) : str :=
  match s with
  | [] => []
  | c :: s' => if is_digit c then s else from_first_digit s'
  end.

Definition digits_at (s : str) : str := firstn (run_length is_digit s) s.

Definition after_digits (s : str) : str := skipn (run_length is_digit s) s.

Definition amount_of_text (t : str) : spec_float :=
  match from_first_digit t with
  | [] => S754_zero false
  | c :: s =>
      let u := c :: s in
      let whole := digits_at u in
      let frac := match after_digits u with
                  | c :: r => if is_char "." c then digits_at r else []
                  | [] => []
                  end in
      binary64_of_decimal (digits_value (whole ++ frac)) (length frac)
  end.





(** Quantity and unit are both empty or both non-empty. *)
Definition paired (qty unit : str) : Prop :=
  (qty = [] /\ unit = []) \/ (truthy qty = true /\ truthy unit = true).

(** What one line does to the variables of the loop. *)
Inductive effect (st : state) (line : str) : state -> Prop :=
| Ignored :
    effect st line st
| Service_header (svc total : str) :
    In svc SERVICE_KEYWORDS -> startswith line svc = true ->
    contains "USD" line = true ->
    effect st line (enter_service st (Some svc) (Some total))
| Region_header (service region : str) :
    current_service st = Some service -> truthy service = true ->
    In region REGION_KEYWORDS -> startswith line region = true ->
    effect st line (enter_region st (Some region))
| Sub_service_header (service name : str) :
    current_service st = Some service -> truthy service = true ->
    contains "USD" line = true ->
    effect st line (enter_sub_service st name)
| Usage_line (service : str) (r : UsageRecord) :
    current_service st = Some service -> truthy service = true ->
    contains "USD" line = true ->
    Service r = service ->
    Region r = or_empty (current_region st) ->
    truthy (Description r) = true ->
    paired (Usage_Quantity r) (Usage_Unit r) ->
    nonnegative (Amount r) ->
    Amount_Unit r = lit "USD" ->
    effect st line (append_record st r).

(** The variables after one line. *)
Definition step (st : state) (line : str) : state :=
  match iteration 0 st line with
  | Ok (_, st') => st'
  | _ => st
  end.

(** The variables after a run of lines. *)
Definition run (st : state) (lines : list str) : state := fold_left step lines st.

(** The names held by the loop variables come from the two vocabularies. *)
Definition names_known (st : state) : Prop :=
  (forall service, current_service st = Some service -> In service SERVICE_KEYWORDS)
  /\ (forall region, current_region st = Some region -> In region REGION_KEYWORDS).

(** One of the two names is a prefix of the other. *)
Definition comparable (a b : str) : bool := startswith a b || startswith b a.

(** Concrete inputs. *)
Definition example_lines : list str :=
  map lit
  ["Lambda USD 12.00"; "Asia Pacific (Seoul) USD 12.00";
   "Amazon Lambda Requests USD 12.00";
   "$0.0000002 per request 60,000,000 Requests USD 12.00"].

Definition example_record : UsageRecord :=
  {| Service := "Lambda";
     Region := "Asia Pacific (Seoul)";
     Description := "$0.0000002 per request";
     Usage_Quantity := "60,000,000";
     Usage_Unit := "Requests";
     Amount := float_12;
     Amount_Unit := "USD" |}.




(** Following the words of the specification: everything from "USD" to the end
    of the line, trimmed. *)
Fixpoint from_first (p s : str) : str :=
  if startswith s p then s
  else match s with
       | [] => []
       | _ :: s' => from_first p s'
       end.

Definition stated_total (line : str) : str := strip (from_first "USD" line).

(** ** Further notions about the flat parse *)

(** A character of group 1 of the quantity pattern. *)
Definition quantity_char (c : ascii) : bool := digit_or_comma c || is_char "." c.

(** The loop variables with [recs] put in front of the records so far. *)
Definition with_records (recs : list UsageRecord) (st : state) : state :=
  {| csv_data := recs ++ csv_data st;
     current_service := current_service st;
     current_service_total := current_service_total st;
     current_region := current_region st;
     current_sub_service := current_sub_service st |}.

(** Two states that agree on everything but [current_sub_service]. *)
Definition same_but_sub (st1 st2 : state) : Prop :=
  csv_data st1 = csv_data st2
  /\ current_service st1 = current_service st2
  /\ current_service_total st1 = current_service_total st2
  /\ current_region st1 = current_region st2.

(** ** Reading the pages: [_read_pdf_lines] and [extract_to_csv_data] *)

(** The one-character text of a line feed. *)
Definition newline : str := [ascii_of_nat 10].

(** The loop of [_read_pdf_lines] over the texts that [page.extract_text()]
    answers for the pages of the document, [None] for a page without text:
    a page with text gives its lines, each one stripped. *)
Fixpoint _read_pdf_lines (page_texts : list (option str)) : list str :=
  match page_texts with
  | [] => []
  | text :: rest =>
      (if named text then map strip (split newline (or_empty text)) else [])
      ++ _read_pdf_lines rest
  end.

(** [extract_to_csv_data] on a document that could be opened, given the texts
    of its pages. *)
Definition extract_to_csv_data (page_texts : list (option str))
  : outcome (list UsageRecord) :=
  _parse_lines_to_csv_data (_read_pdf_lines page_texts).

(** ** The upload filter of the web application: [allowed_file] *)

(** [str.lower] on one character: below 256 the letters with a lower-case
    form are A-Z and 0xc0-0xde without 0xd7, each 32 below its lower case. *)
Definition lower_char (c : ascii) : ascii :=
  let n := code c in
  if ((65 <=? n) && (n <=? 90))
     || ((192 <=? n) && (n <=? 222) && negb (n =? 215))
  then ascii_of_nat (n + 32) else c.

Definition lower (s : str) : str := map lower_char s.

Definition ALLOWED_EXTENSIONS : list str := [lit "pdf"].

Definition allowed_file (filename : str) : outcome bool :=
  if contains "." filename then
    ext <- item (rsplit1 "." filename) 1 ;;
    Ok (existsb (str_eqb (lower ext)) ALLOWED_EXTENSIONS)
  else Ok false.

(** ** The summary of [preview_data] *)

(** A value held by a row of [csv_data]. *)
Inductive value := VStr (s : str) | VNum (x : spec_float).

Inductive lookup_error := KeyError (key : string) | TypeError.

Inductive result (A : Type) : Type :=
| Returned (a : A)
| Failed (e : lookup_error).

Arguments Returned {A} a.
Arguments Failed {A} e.

Definition and_then {A B : Type} (m : result A) (k : A -> result B) : result B :=
  match m with
  | Returned a => k a
  | Failed e => Failed e
  end.

(** [row[key]] on a row built by [_parse_lines_to_csv_data]. *)
Definition getitem (row : UsageRecord) (key : string) : result value :=
  if String.eqb key "Service" then Returned (VStr (Service row))
  else if String.eqb key "Region" then Returned (VStr (Region row))
  else if String.eqb key "Description" then Returned (VStr (Description row))
  else if String.eqb key "Usage_Quantity" then Returned (VStr (Usage_Quantity row))
  else if String.eqb key "Usage_Unit" then Returned (VStr (Usage_Unit row))
  else if String.eqb key "Amount" then Returned (VNum (Amount row))
  else if String.eqb key "Amount_Unit" then Returned (VStr (Amount_Unit row))
  else Failed (KeyError key).

Definition value_eqb (a b : value) : bool :=
  match a, b with
  | VStr s, VStr t => str_eqb s t
  | VNum x, VNum y => SFeqb x y
  | _, _ => false
  end.

(** [service_summary]: the entries in insertion order, each with its
    ['count'] and ['total']. *)
Definition summary := list (value * (nat * spec_float)).

Definition has_key (s : summary) (k : value) : bool :=
  existsb (fun e => value_eqb (fst e) k) s.

Definition update (s : summary) (k : value)
           (f : nat * spec_float -> nat * spec_float) : summary :=
  map (fun e => if value_eqb (fst e) k then (fst e, f (snd e)) else e) s.

(** The [for row in csv_data] loop of [preview_data]. *)
Fixpoint summarize (rows : list UsageRecord) (s : summary) : result summary :=
  match rows with
  | [] => Returned s
  | row :: rows' =>
      and_then (getitem row "Service") (fun service =>
      let s1 := if has_key s service then s else s ++ [(service, (0, S754_zero false))] in
      let s2 := update s1 service (fun e => (S (fst e), snd e)) in
      and_then (getitem row "Amount_USD") (fun amount =>
      match amount with
      | VNum x =>
          summarize rows' (update s2 service (fun e => (fst e, SFadd 53 1024 (snd e) x)))
      | VStr _ => Failed TypeError
      end))
  end.

(** What [preview_data] answers once the rows are extracted: an error with its
    status code, or the preview. *)
Inductive response :=
| Error_response (status : nat)
| Preview_response (total_rows : nat) (service_summary : summary)
                   (preview : list UsageRecord).

Definition preview_of (csv_data : list UsageRecord) : response :=
  match csv_data with
  | [] => Error_response 400
  | _ :: _ =>
      match summarize csv_data [] with
      | Returned s => Preview_response (length csv_data) s (firstn 20 csv_data)
      | Failed _ => Error_response 500
      end
  end.

(** ** The report: the loop of [_parse_lines]

    [_parse_lines] runs the same classifiers over the lines (its local
    [is_service_header] and [is_region_header], with their own copies of the
    two keyword lists, are the ones above word for word) and collects, per
    service, the lines to print.  Each [result.append(format_service_block(
    current_service, current_service_total, service_lines))] is kept here as
    the three arguments of the call; the rendering of a block to text, with
    its fixed headings, is left out. *)

Module Report.

(** An element of [service_lines]: the tagged tuples [("region", ...)],
    [("sub_service", ...)] and [("item", ...)]. *)
Inductive entry :=
| Region_line (region_name region_total : option str)
| Sub_service_line (sub_name sub_total : str)
| Item_line (desc qty amt : str).

(** The arguments of one call of [format_service_block]. *)
Record block := {
  block_service : option str;
  block_total : option str;
  block_lines : list entry
}.

Record state := {
  result : list block;
  current_service : option str;
  current_service_total : option str;
  service_lines : list entry
}.

Definition initial : state :=
  {| result := [];
     current_service := None;
     current_service_total := Some [];
     service_lines := [] |}.

(** [if current_service and service_lines: result.append(...)] *)
Definition flush (st : state) : list block :=
  if named (current_service st)
     && match service_lines st with [] => false | _ :: _ => true end
  then result st ++ [ {| block_service := current_service st;
                         block_total := current_service_total st;
                         block_lines := service_lines st |} ]
  else result st.

Definition add_line (st : state) (e : entry) : state :=
  {| result := result st;
     current_service := current_service st;
     current_service_total := current_service_total st;
     service_lines := service_lines st ++ [e] |}.

(** The usage-line branch: the item to append, if any. *)
Definition usage_item (line : str) : outcome (option entry) :=
  let parts := rsplit1 "USD" line in
  p0 <- item parts 0 ;;
  let left_part := strip p0 in
  amount <- (if 1 <? length parts
             then p1 <- item parts 1 ;; Ok (lit "USD" ++ strip p1)
             else Ok []) ;;
  let '(qty, desc) :=
    match search_qty left_part with
    | Some m => (group1 m ++ lit " " ++ group2 m, strip (firstn (m_start m) left_part))
    | None => ([], left_part)
    end in
  if truthy desc && truthy amount then Ok (Some (Item_line desc qty amount))
  else Ok None.

(** One pass through the body of the [while] loop of [_parse_lines]. *)
Definition iteration (i : nat) (st : state) (line : str) : outcome (nat * state) :=
  if negb (truthy line) then Ok (S i, st)
  else if contains "Charges by service" line then Ok (S i, st)
  else
    hdr <- is_service_header line ;;
    let '(svc_name, svc_total) := hdr in
    if named svc_name then
      Ok (S i, {| result := flush st;
                  current_service := svc_name;
                  current_service_total := svc_total;
                  service_lines := [] |})
    else
      match current_service st with
      | Some service =>
          if truthy service then
            rhdr <- is_region_header line ;;
            let '(region_name, region_total) := rhdr in
            if named region_name then
              Ok (S i, add_line st (Region_line region_name region_total))
            else if sub_service_prefix line then
              if contains "USD" line then
                let parts := rsplit1 "USD" line in
                p0 <- item parts 0 ;;
                p1 <- item parts 1 ;;
                Ok (S i, add_line st (Sub_service_line (strip p0)
                                        (lit "USD" ++ strip p1)))
              else Ok (S i, st)
            else if contains "USD" line then
              it <- usage_item line ;;
              Ok (S i, match it with
                       | Some e => add_line st e
                       | None => st
                       end)
            else Ok (S i, st)
          else Ok (S i, st)
      | None => Ok (S i, st)
      end.

Fixpoint loop (fuel : nat) (lines : list str) (i : nat) (st : state) : outcome state :=
  if i <? length lines then
    match fuel with
    | O => OutOfFuel
    | S fuel' =>
        line <- item lines i ;;
        next <- iteration i st line ;;
        loop fuel' lines (fst next) (snd next)
    end
  else Ok st.

(** The blocks that [_parse_lines] formats and joins, in order. *)
Definition _parse_lines_blocks (lines : list str) : outcome (list block) :=
  st <- loop (length lines) lines 0 initial ;;
  Ok (flush st).

(** The variables after one line, and after a run of lines. *)
Definition step (st : state) (line : str) : state :=
  match iteration 0 st line with
  | Ok (_, st') => st'
  | _ => st
  end.

Definition run (st : state) (lines : list str) : state := fold_left step lines st.

(** The items of a block, each with the service of the block. *)
Definition items_of (service : option str) (lines : list entry)
  : list (option str * str * str * str) :=
  flat_map (fun e => match e with
                     | Item_line desc qty amt => [(service, desc, qty, amt)]
                     | _ => []
                     end) lines.

Definition report_items (bs : list block) : list (option str * str * str * str) :=
  flat_map (fun b => items_of (block_service b) (block_lines b)) bs.

End Report.

(** The quantity column of the report for a flat record: quantity and unit
    with a space between them, or nothing. *)
Definition quantity_text (r : UsageRecord) : str :=
  if truthy (Usage_Quantity r) then Usage_Quantity r ++ lit " " ++ Usage_Unit r else [].

(** An item of the report and a flat record that say the same. *)
Definition same_usage (it : option str * str * str * str) (r : UsageRecord) : Prop :=
  let '(service, desc, qty, amt) := it in
  service = Some (Service r) /\ desc = Description r
  /\ qty = quantity_text r /\ parse_amount amt = Ok (Amount r).

(** The flat parse and the report loop in step. *)
Definition in_step (st : state) (rs : Report.state) : Prop :=
  current_service st = Report.current_service rs
  /\ (Report.service_lines rs <> [] -> named (Report.current_service rs) = true)
  /\ Forall2 same_usage
       (Report.report_items (Report.result rs)
        ++ Report.items_of (Report.current_service rs) (Report.service_lines rs))
       (csv_data st).

(** A block that [_parse_lines] may print: its service is a known name and it
    has at least one line under the heading. *)
Definition printable (b : Report.block) : Prop :=
  (exists svc, Report.block_service b = Some svc /\ In svc SERVICE_KEYWORDS)
  /\ Report.block_lines b <> [].

Definition report_known (rs : Report.state) : Prop :=
  (forall svc, Report.current_service rs = Some svc -> In svc SERVICE_KEYWORDS)
  /\ Forall printable (Report.result rs).

(** The block of the report for [example_lines]. *)
Definition example_block : Report.block :=
  {| Report.block_service := Some (lit "Lambda");
     Report.block_total := Some (lit "USD12.00");
     Report.block_lines :=
       [Report.Region_line (Some (lit "Asia Pacific (Seoul)")) (Some (lit "USD12.00"));
        Report.Sub_service_line "Amazon Lambda Requests" "USD12.00";
        Report.Item_line "$0.0000002 per request" "60,000,000 Requests" "USD12.00"] |}.

(** * Properties *)

(** ** Small runs of the string functions *)

Example split_ex : split "USD" "a USD b USDc" = [lit "a "; lit " b "; lit "c"].
Proof. reflexivity. Qed.

Example rsplit1_ex : rsplit1 "USD" "a USD b USDc" = [lit "a USD b "; lit "c"].
Proof. reflexivity. Qed.

Example strip_ex : strip "  a b  " = lit "a b".
Proof. reflexivity. Qed.

Example search_qty_ex :
  search_qty "$0.0000002 per request 60,000,000 Requests"
  = Some {| m_start := 23; group1 := "60,000,000"; group2 := "Requests" |}.
Proof. reflexivity. Qed.

Example search_qty_backtracks :
  search_qty "x 55" = Some {| m_start := 2; group1 := "5"; group2 := "5" |}.
Proof. reflexivity. Qed.

Example search_qty_none : search_qty "x 5" = None.
Proof. reflexivity. Qed.

Example search_amount_ex : search_amount "USD12.00" = Some (lit "12.00").
Proof. reflexivity. Qed.

Example float_ex : float "12.00" = Ok float_12.
Proof. vm_compute. reflexivity. Qed.

Example float_rounds :
  float "1234.56" = Ok (S754_finite false 5429652300748554 (-42)).
Proof. vm_compute. reflexivity. Qed.

Example float_tenth : float "0.1" = Ok (S754_finite false 7205759403792794 (-56)).
Proof. vm_compute. reflexivity. Qed.

Example float_overflows : float (repeat "9"%char 400) = Ok (S754_infinity false).
Proof. vm_compute. reflexivity. Qed.

Example float_bare_point : float "." = Raise ValueError.
Proof. vm_compute. reflexivity. Qed.

Example float_12_value :
  exists q, float_value float_12 = Some q /\ (q == 12)%Q.
Proof. eexists. split; reflexivity. Qed.

Example float_1_value :
  exists q, float_value float_1 = Some q /\ (q == 1)%Q.
Proof. eexists. split; reflexivity. Qed.

Example float_0_125_value :
  exists q, float_value float_0_125 = Some q /\ (q == 1 # 8)%Q.
Proof. eexists. split; reflexivity. Qed.

(** ** Text *)

Lemma startswith_app (p rest : str) : startswith (p ++ rest) p = true.
Proof.
  induction p as [|d p IH]; simpl; [reflexivity|].
  destruct (ascii_dec d d); [exact IH | congruence].
Qed.

Lemma startswith_inv (s p : str) :
  startswith s p = true -> exists rest, s = p ++ rest.
Proof.
  revert s; induction p as [|d p IH]; intros s H.
  - exists s; reflexivity.
  - destruct s as [|c s]; simpl in H; [discriminate|].
    destruct (ascii_dec c d) as [->|]; [|discriminate].
    destruct (IH _ H) as [rest ->]. exists rest; reflexivity.
Qed.

Lemma startswith_nil (p : str) : startswith [] p = true -> p = [].
Proof. destruct p; simpl; [reflexivity | discriminate]. Qed.

Lemma contains_at_start (p s : str) : startswith s p = true -> contains p s = true.
Proof. intros H. destruct s; simpl; rewrite H; reflexivity. Qed.

Lemma contains_app (p a b : str) : contains p (a ++ p ++ b) = true.
Proof.
  induction a as [|c a IH]; simpl.
  - apply contains_at_start, startswith_app.
  - rewrite IH. apply orb_true_r.
Qed.

Lemma contains_inv (p s : str) :
  contains p s = true -> exists a b, s = a ++ p ++ b.
Proof.
  induction s as [|c s IH]; simpl; intros H.
  - rewrite orb_false_r in H. apply startswith_nil in H; subst.
    exists [], []; reflexivity.
  - apply orb_true_iff in H as [H|H].
    + destruct (startswith_inv _ _ H) as [rest E].
      exists [], rest; exact E.
    + destruct (IH H) as (a & b & ->). exists (c :: a), b; reflexivity.
Qed.

Lemma contains_cons (p : str) (c : ascii) (s : str) :
  contains p (c :: s) = startswith (c :: s) p || contains p s.
Proof. reflexivity. Qed.

(** A pattern that starts with a character the prefix does not have is found
    in [pre ++ rest] only inside [rest]. *)
Lemma contains_past_prefix (d : ascii) (p pre rest : str) :
  ~ In d pre -> contains (d :: p) (pre ++ rest) = contains (d :: p) rest.
Proof.
  induction pre as [|c pre IH]; intros Hd; [reflexivity|].
  change ((c :: pre) ++ rest) with (c :: pre ++ rest).
  rewrite contains_cons, IH by (intros F; apply Hd; right; exact F).
  simpl. destruct (ascii_dec c d) as [->|]; [|reflexivity].
  exfalso; apply Hd; left; reflexivity.
Qed.

(** *** [split] *)

Lemma split_from_skip (sep pre rest : str) :
  split_from sep (pre ++ rest) (length pre) = split_from sep rest 0.
Proof.
  induction pre as [|c pre IH]; simpl; [reflexivity | exact IH].
Qed.

Lemma split_from_nonempty (sep s : str) (skip : nat) : split_from sep s skip <> [].
Proof.
  revert skip; induction s as [|c s IH]; intros skip; simpl; [discriminate|].
  destruct skip; [|apply IH].
  destruct (startswith (c :: s) sep); [discriminate|].
  destruct (split_from sep s 0); discriminate.
Qed.

Lemma split_at_sep (sep rest : str) :
  truthy sep = true -> split sep (sep ++ rest) = [] :: split sep rest.
Proof.
  destruct sep as [|d sep]; [discriminate|]; intros _.
  unfold split.
  change ((d :: sep) ++ rest) with (d :: sep ++ rest).
  cbn [split_from].
  change (d :: sep ++ rest) with ((d :: sep) ++ rest).
  rewrite startswith_app.
  f_equal. cbn [length]. rewrite Nat.sub_1_r. cbn [Nat.pred].
  apply split_from_skip.
Qed.

Lemma split_not_at_sep (sep : str) (c : ascii) (s : str) :
  startswith (c :: s) sep = false ->
  exists p ps, split sep s = p :: ps /\ split sep (c :: s) = (c :: p) :: ps.
Proof.
  intros H. unfold split. cbn [split_from]. rewrite H.
  destruct (split_from sep s 0) as [|p ps] eqn:E.
  - exfalso; exact (split_from_nonempty _ _ _ E).
  - exists p, ps; split; reflexivity.
Qed.

Lemma split_without_sep (sep s : str) :
  contains sep s = false -> split sep s = [s].
Proof.
  induction s as [|c s IH]; intros H; [reflexivity|].
  rewrite contains_cons in H. apply orb_false_iff in H as [H1 H2].
  destruct (split_not_at_sep _ _ _ H1) as (p & ps & E1 & E2).
  rewrite E2. rewrite (IH H2) in E1. injection E1 as <- <-. reflexivity.
Qed.

Lemma last_item_cons (p q : str) (ps : list str) :
  last_item (p :: q :: ps) = last_item (q :: ps).
Proof.
  unfold last_item. simpl.
  destruct (rev ps ++ [q]) as [|x xs] eqn:E.
  - destruct (rev ps); discriminate.
  - reflexivity.
Qed.

Lemma last_item_total (ps : list str) : ps <> [] -> exists p, last_item ps = Ok p.
Proof.
  intros H. unfold last_item. destruct (rev ps) as [|p l] eqn:E.
  - apply (f_equal (@rev str)) in E. rewrite rev_involutive in E. contradiction.
  - exists p; reflexivity.
Qed.

Lemma contains_nil_false (sep : str) : truthy sep = true -> contains sep [] = false.
Proof. destruct sep; [discriminate | reflexivity]. Qed.

Lemma split_single (sep s p : str) :
  truthy sep = true -> split sep s = [p] -> contains sep s = false.
Proof.
  intros Hsep. revert p; induction s as [|c s IH]; intros p H.
  - apply contains_nil_false, Hsep.
  - rewrite contains_cons.
    destruct (startswith (c :: s) sep) eqn:Hs.
    + exfalso. unfold split in H. cbn [split_from] in H. rewrite Hs in H.
      injection H as _ H. exact (split_from_nonempty _ _ _ H).
    + destruct (split_not_at_sep _ _ _ Hs) as (q & qs & E1 & E2).
      rewrite E2 in H. injection H as _ ->.
      rewrite (IH _ E1). reflexivity.
Qed.

Lemma split_two (sep s : str) :
  truthy sep = true -> contains sep s = true ->
  exists p q ps, split sep s = p :: q :: ps.
Proof.
  intros Hsep H. destruct (split sep s) as [|p [|q ps]] eqn:E.
  - exfalso; exact (split_from_nonempty _ _ _ E).
  - apply split_single in E; [congruence | exact Hsep].
  - exists p, q, ps; reflexivity.
Qed.

Lemma contains_suffix (p a b : str) : contains p b = true -> contains p (a ++ b) = true.
Proof.
  intros H. destruct (contains_inv _ _ H) as (x & y & ->).
  rewrite app_assoc. apply contains_app.
Qed.

(** The last occurrence of a non-empty pattern. *)
Lemma last_occurrence (p s : str) :
  truthy p = true -> contains p s = true ->
  exists a b, s = a ++ p ++ b /\ contains p b = false.
Proof.
  intros Hp. induction s as [|c s IH]; intros H.
  - rewrite contains_nil_false in H by exact Hp. discriminate.
  - destruct (contains p s) eqn:Hs.
    + destruct (IH eq_refl) as (a & b & -> & Hb).
      exists (c :: a), b; split; [reflexivity | exact Hb].
    + rewrite contains_cons, Hs, orb_false_r in H.
      destruct (startswith_inv _ _ H) as [rest E].
      exists [], rest; split; [exact E|].
      destruct (contains p rest) eqn:Hr; [|reflexivity].
      destruct p as [|d p]; [discriminate|].
      injection E as _ E. subst s.
      rewrite (contains_suffix _ p rest Hr) in Hs. discriminate.
Qed.

(** [parts[-1]] of [line.split("USD")] is the text after the last "USD". *)
Lemma last_split_USD (before after : str) :
  contains "USD" after = false ->
  last_item (split "USD" (before ++ lit "USD" ++ after)) = Ok after.
Proof.
  intros Ha.
  remember (length before) as n eqn:Hn.
  revert before Hn; induction n as [n IH] using lt_wf_ind; intros before Hn.
  destruct (startswith (before ++ lit "USD" ++ after) "USD") eqn:Hs.
  - destruct before as [|b1 [|b2 [|b3 before]]].
    + change ([] ++ lit "USD" ++ after) with (lit "USD" ++ after).
      rewrite split_at_sep by reflexivity.
      rewrite (split_without_sep _ _ Ha). reflexivity.
    + exfalso. cbn in Hs.
      destruct (ascii_dec b1 "U"); [|discriminate]. discriminate.
    + exfalso. cbn in Hs.
      destruct (ascii_dec b1 "U"); [|discriminate].
      destruct (ascii_dec b2 "S"); [|discriminate]. discriminate.
    + cbn in Hs.
      destruct (ascii_dec b1 "U") as [->|]; [|discriminate].
      destruct (ascii_dec b2 "S") as [->|]; [|discriminate].
      destruct (ascii_dec b3 "D") as [->|]; [|discriminate].
      change (("U"%char :: "S"%char :: "D"%char :: before) ++ lit "USD" ++ after)
        with (lit "USD" ++ (before ++ lit "USD" ++ after)).
      rewrite split_at_sep by reflexivity.
      destruct (split "USD" (before ++ lit "USD" ++ after)) as [|q qs] eqn:E.
      * exfalso; exact (split_from_nonempty _ _ _ E).
      * rewrite last_item_cons, <- E.
        apply (IH (length before)); [subst n; simpl; lia | reflexivity].
  - destruct before as [|c before].
    + change ([] ++ lit "USD" ++ after) with (lit "USD" ++ after) in Hs.
      rewrite startswith_app in Hs. discriminate.
    + change ((c :: before) ++ lit "USD" ++ after)
        with (c :: before ++ lit "USD" ++ after) in *.
      destruct (split_not_at_sep _ _ _ Hs) as (p & ps & E1 & E2).
      rewrite E2.
      assert (Hc : contains "USD" (before ++ lit "USD" ++ after) = true)
        by apply contains_app.
      destruct (split_two (lit "USD") _ eq_refl Hc) as (p' & q & qs & E3).
      rewrite E1 in E3. injection E3 as <- ->.
      rewrite last_item_cons, <- (last_item_cons p), <- E1.
      apply (IH (length before)); [subst n; simpl; lia | reflexivity].
Qed.

(** ** The header classifiers *)

Lemma service_header_in_no_USD (keywords : list str) (line : str) :
  contains "USD" line = false -> service_header_in keywords line = Ok (None, None).
Proof.
  intros H. induction keywords as [|svc keywords IH]; cbn [service_header_in];
    [reflexivity|].
  rewrite H, andb_false_r. exact IH.
Qed.

Lemma service_header_in_USD (keywords : list str) (before after : str) :
  contains "USD" after = false ->
  service_header_in keywords (before ++ lit "USD" ++ after)
  = Ok match find (startswith (before ++ lit "USD" ++ after)) keywords with
       | Some svc => (Some svc, Some (lit "USD" ++ strip after))
       | None => (None, None)
       end.
Proof.
  intros Ha. set (line := before ++ lit "USD" ++ after).
  assert (Hc : contains "USD" line = true) by apply contains_app.
  assert (Hlen : (2 <=? length (split "USD" line)) = true).
  { destruct (split_two (lit "USD") _ eq_refl Hc) as (p & q & ps & E).
    rewrite E. reflexivity. }
  induction keywords as [|svc keywords IH]; cbn [service_header_in find]; [reflexivity|].
  rewrite Hc, andb_true_r.
  destruct (startswith line svc); [|exact IH].
  cbv zeta. rewrite Hlen. unfold line. rewrite (last_split_USD _ _ Ha). reflexivity.
Qed.

Lemma region_header_in_find (keywords : list str) (line : str) :
  exists total,
    region_header_in keywords line
    = Ok match find (startswith line) keywords with
         | Some region => (Some region, Some total)
         | None => (None, None)
         end.
Proof.
  induction keywords as [|region keywords IH]; cbn [region_header_in find].
  - exists []; reflexivity.
  - destruct (startswith line region); [|exact IH].
    destruct (contains "USD" line) eqn:Hc.
    + destruct (last_item_total (split "USD" line)) as [p Hp].
      { apply split_from_nonempty. }
      rewrite Hp. eexists; reflexivity.
    + eexists; reflexivity.
Qed.

(** ** The regular-expression matcher *)

Lemma backtrack_inv {A : Type} (k : nat -> option A) (lo n : nat) (r : A) :
  backtrack k lo n = Some r -> exists j, lo <= j <= n /\ k j = Some r.
Proof.
  induction n as [|n IH]; cbn [backtrack]; intros H.
  - destruct (0 <? lo) eqn:Hlo; [discriminate|].
    apply Nat.ltb_ge in Hlo.
    destruct (k 0) eqn:Hk; [|discriminate].
    exists 0; split; [lia | congruence].
  - destruct (S n <? lo) eqn:Hlo; [discriminate|].
    apply Nat.ltb_ge in Hlo.
    destruct (k (S n)) eqn:Hk.
    + exists (S n); split; [lia | congruence].
    + destruct (IH H) as (j & Hj & Hkj). exists j; split; [lia | exact Hkj].
Qed.

Lemma match_here_cons (p : ascii -> bool) (q : quant) (re : list element)
      (anchored : bool) (s : str) (ls : list nat) :
  match_here ((p, q) :: re) anchored s = Some ls ->
  exists j ls',
    ls = j :: ls' /\ at_least q <= j <= at_most q (run_length p s)
    /\ match_here re anchored (skipn j s) = Some ls'.
Proof.
  cbn [match_here]. intros H.
  apply backtrack_inv in H as (j & Hj & Hk).
  destruct (match_here re anchored (skipn j s)) as [ls'|] eqn:E; [|discriminate].
  injection Hk as <-. exists j, ls'. auto.
Qed.

Lemma search_from_inv (re : list element) (anchored : bool) (s : str)
      (pos start : nat) (ls : list nat) :
  search_from re anchored s pos = Some (start, ls) ->
  exists n, start = pos + n /\ match_here re anchored (skipn n s) = Some ls.
Proof.
  revert pos; induction s as [|c s IH]; intros pos; cbn [search_from].
  - destruct (match_here re anchored []) eqn:E; [|discriminate].
    intros H; injection H as <- <-. exists 0; split; [lia | exact E].
  - destruct (match_here re anchored (c :: s)) eqn:E.
    + intros H; injection H as <- <-. exists 0; split; [lia | exact E].
    + intros H. destruct (IH _ H) as (n & -> & Hn).
      exists (S n); split; [lia | exact Hn].
Qed.

Lemma run_length_firstn (p : ascii -> bool) (s : str) (j : nat) :
  j <= run_length p s -> forallb p (firstn j s) = true /\ length (firstn j s) = j.
Proof.
  revert s; induction j as [|j IH]; intros s H; [split; reflexivity|].
  destruct s as [|c s]; simpl in H; [lia|].
  destruct (p c) eqn:Hp; [|lia].
  destruct (IH s) as [H1 H2]; [lia|].
  simpl. rewrite Hp, H1, H2. split; reflexivity.
Qed.

Lemma run_length_all (p : ascii -> bool) (s : str) :
  forallb p s = true -> run_length p s = length s.
Proof.
  induction s as [|c s IH]; simpl; [reflexivity|].
  intros H. apply andb_true_iff in H as [-> H]. rewrite (IH H). reflexivity.
Qed.

Lemma run_length_stop (p : ascii -> bool) (a : str) (c : ascii) (b : str) :
  forallb p a = true -> p c = false -> run_length p (a ++ c :: b) = length a.
Proof.
  induction a as [|x a IH]; simpl; intros Ha Hc.
  - rewrite Hc; reflexivity.
  - apply andb_true_iff in Ha as [-> Ha]. rewrite (IH Ha Hc). reflexivity.
Qed.

Lemma firstn_plus (a b : nat) (s : str) :
  firstn (a + b) s = firstn a s ++ firstn b (skipn a s).
Proof.
  revert s; induction a as [|a IH]; intros s; [reflexivity|].
  destruct s as [|c s]; simpl.
  - destruct b; reflexivity.
  - rewrite IH. reflexivity.
Qed.

Lemma in_skipn (n : nat) (s : str) (c : ascii) : In c (skipn n s) -> In c s.
Proof.
  revert s; induction n as [|n IH]; intros s H; [exact H|].
  destruct s as [|x s]; [exact H|]. right. apply IH, H.
Qed.

Lemma in_firstn (n : nat) (s : str) (c : ascii) : In c (firstn n s) -> In c s.
Proof.
  revert s; induction n as [|n IH]; intros s H; [contradiction|].
  destruct s as [|x s]; [contradiction|].
  destruct H as [H|H]; [left; exact H | right; apply IH, H].
Qed.

(** ** Amounts *)

Lemma firstn_length_app (a b : str) : firstn (length a) (a ++ b) = a.
Proof. induction a as [|c a IH]; simpl; [destruct b; reflexivity | rewrite IH; reflexivity]. Qed.

Lemma skipn_length_app (a b : str) : skipn (length a) (a ++ b) = b.
Proof. induction a as [|c a IH]; simpl; [reflexivity | exact IH]. Qed.

(** *** Rounding never gives a negative number or a NaN *)

Lemma shr_1_nonneg (mrs : shr_record) :
  (0 <= shr_m mrs)%Z -> (0 <= shr_m (shr_1 mrs))%Z.
Proof.
  destruct mrs as [m r s]. cbn [shr_m].
  destruct m as [|[p|p|]|p]; cbn [shr_1 shr_m]; lia.
Qed.

Lemma iter_shr_1_nonneg (p : positive) (mrs : shr_record) :
  (0 <= shr_m mrs)%Z -> (0 <= shr_m (iter_pos shr_1 p mrs))%Z.
Proof.
  revert mrs; induction p as [p IH|p IH|]; intros mrs H; cbn [iter_pos].
  - apply IH, IH, shr_1_nonneg, H.
  - apply IH, IH, H.
  - apply shr_1_nonneg, H.
Qed.

Lemma shr_fexp_nonneg (m e : Z) (l : location) :
  (0 <= m)%Z -> (0 <= shr_m (fst (shr_fexp 53 1024 m e l)))%Z.
Proof.
  intros H. unfold shr_fexp, shr.
  assert (H0 : (0 <= shr_m (shr_record_of_loc m l))%Z)
    by (destruct l as [|[]]; exact H).
  destruct (fexp 53 1024 (Zdigits2 m + e) - e)%Z; cbn [fst];
    [exact H0 | apply iter_shr_1_nonneg, H0 | exact H0].
Qed.

Lemma round_nearest_even_nonneg (m : Z) (l : location) :
  (0 <= m)%Z -> (0 <= round_nearest_even m l)%Z.
Proof.
  intros H. destruct l as [|[]]; cbn [round_nearest_even]; try lia.
  destruct (Z.even m); lia.
Qed.

Lemma binary_round_aux_nonneg (m e : Z) (l : location) :
  (0 <= m)%Z -> nonnegative (binary_round_aux 53 1024 false m e l).
Proof.
  intros H. unfold binary_round_aux.
  pose proof (shr_fexp_nonneg m e l H) as H1.
  destruct (shr_fexp 53 1024 m e l) as [mrs' e']. cbn [fst] in H1.
  pose proof (shr_fexp_nonneg _ e' loc_Exact
                (round_nearest_even_nonneg _ (loc_of_shr_record mrs') H1)) as H2.
  destruct (shr_fexp 53 1024 (round_nearest_even (shr_m mrs') (loc_of_shr_record mrs'))
              e' loc_Exact) as [mrs'' e'']. cbn [fst] in H2.
  destruct (shr_m mrs'') as [|q|q]; [exact I | | lia].
  destruct (e'' <=? 1024 - 53)%Z; exact I.
Qed.

Lemma SFdiv_core_nonneg (p d : positive) :
  (0 <= fst (fst (SFdiv_core_binary 53 1024 (Zpos p) 0 (Zpos d) 0)))%Z.
Proof.
  unfold SFdiv_core_binary.
  set (e' := Z.min _ _). set (sh := (0 - 0 - e')%Z).
  set (m' := match sh with
             | 0%Z => Zpos p
             | Zpos _ => Z.shiftl (Zpos p) sh
             | Zneg _ => 0%Z
             end).
  assert (Hm : (0 <= m')%Z).
  { unfold m'. destruct sh; [lia | apply Z.shiftl_nonneg; lia | lia]. }
  pose proof (Z_div_mod m' (Zpos d) eq_refl) as Hd.
  destruct (Z.div_eucl m' (Zpos d)) as [q r]. cbn [fst].
  destruct Hd as [Hd Hr]. nia.
Qed.

(** The float of a decimal numeral is never negative and never a NaN. *)
Lemma binary64_of_decimal_nonneg (n : N) (k : nat) :
  nonnegative (binary64_of_decimal n k).
Proof.
  destruct n as [|p]; [exact I|]. unfold binary64_of_decimal, SFdiv.
  pose proof (SFdiv_core_nonneg p (pow10 k)) as H.
  destruct (SFdiv_core_binary 53 1024 (Zpos p) 0 (Zpos (pow10 k)) 0) as [[mz ez] lz].
  cbn [fst] in H. cbn [xorb]. apply binary_round_aux_nonneg, H.
Qed.

(** *** [float] on digits, and on digits, a point and digits *)

Lemma float_digits (whole : str) :
  forallb is_digit whole = true -> truthy whole = true ->
  float whole = Ok (binary64_of_decimal (digits_value whole) 0).
Proof.
  intros Hw Ht. unfold float.
  rewrite (run_length_all _ _ Hw), firstn_all, skipn_all, Ht. reflexivity.
Qed.

Lemma float_point (whole frac : str) :
  forallb is_digit whole = true -> truthy whole = true ->
  forallb is_digit frac = true ->
  float (whole ++ "."%char :: frac)
  = Ok (binary64_of_decimal (digits_value (whole ++ frac)) (length frac)).
Proof.
  intros Hw Ht Hf. unfold float.
  rewrite (run_length_stop is_digit whole "."%char frac Hw eq_refl).
  rewrite firstn_length_app, skipn_length_app.
  rewrite Hf, Ht. cbn [is_char andb orb].
  destruct (ascii_dec "." "."); [reflexivity | congruence].
Qed.

(** *** Commas *)

Lemma remove_char_none (x : string) (s : str) :
  (forall c, In c s -> is_char x c = false) -> remove_char x s = s.
Proof.
  induction s as [|c s IH]; intros H; [reflexivity|].
  unfold remove_char in *. simpl. rewrite (H c (or_introl eq_refl)). simpl.
  rewrite IH; [reflexivity|]. intros d Hd; apply H; right; exact Hd.
Qed.

Lemma remove_char_gone (x : string) (s : str) (c : ascii) :
  In c (remove_char x s) -> is_char x c = false.
Proof.
  unfold remove_char. rewrite filter_In. intros [_ H].
  apply negb_true_iff in H. exact H.
Qed.

Lemma digits_without_comma (s : str) :
  forallb digit_or_comma s = true ->
  (forall c, In c s -> is_char "," c = false) ->
  forallb is_digit s = true.
Proof.
  induction s as [|c s IH]; intros H Hc; [reflexivity|].
  cbn [forallb] in *. apply andb_true_iff in H as [H1 H2].
  unfold digit_or_comma in H1. rewrite (Hc c (or_introl eq_refl)), orb_false_r in H1.
  rewrite H1. apply IH; [exact H2|].
  intros d Hd; apply Hc; right; exact Hd.
Qed.

Lemma run_length_without_comma (s : str) :
  (forall c, In c s -> is_char "," c = false) ->
  run_length digit_or_comma s = run_length is_digit s.
Proof.
  induction s as [|c s IH]; intros H; [reflexivity|]. cbn [run_length].
  unfold digit_or_comma at 1. rewrite (H c (or_introl eq_refl)), orb_false_r.
  destruct (is_digit c); [|reflexivity].
  rewrite IH; [reflexivity|]. intros d Hd; apply H; right; exact Hd.
Qed.

(** *** The amount pattern, read forwards *)

Lemma backtrack_first {A : Type} (k : nat -> option A) (lo n : nat) (r : A) :
  lo <= n -> k n = Some r -> backtrack k lo n = Some r.
Proof.
  intros Hl Hk. destruct n as [|n]; cbn [backtrack].
  - assert (E : (0 <? lo) = false) by (apply Nat.ltb_ge; exact Hl).
    rewrite E, Hk. reflexivity.
  - assert (E : (S n <? lo) = false) by (apply Nat.ltb_ge; exact Hl).
    rewrite E, Hk. reflexivity.
Qed.

Lemma search_from_here (re : list element) (anchored : bool) (s : str) (pos : nat)
      (ls : list nat) :
  match_here re anchored s = Some ls -> search_from re anchored s pos = Some (pos, ls).
Proof. intros H. destruct s; cbn [search_from]; rewrite H; reflexivity. Qed.

Lemma search_from_shift (re : list element) (anchored : bool) (s : str) (pos : nat) :
  search_from re anchored s (S pos)
  = option_map (fun r => (S (fst r), snd r)) (search_from re anchored s pos).
Proof.
  revert pos; induction s as [|c s IH]; intros pos; cbn [search_from].
  - destruct (match_here re anchored []); reflexivity.
  - destruct (match_here re anchored (c :: s)); [reflexivity | apply IH].
Qed.

(** Without a limit at the end the amount pattern takes, at a digit or comma,
    the longest run of them, then a point if one follows, then the longest
    run of digits. *)
Lemma match_amount_greedy (s : str) :
  1 <= run_length digit_or_comma s ->
  match_here amount_re false s
  = Some [run_length digit_or_comma s;
          Nat.min (run_length (is_char ".") (skipn (run_length digit_or_comma s) s)) 1;
          run_length is_digit
            (skipn (Nat.min (run_length (is_char ".")
                               (skipn (run_length digit_or_comma s) s)) 1)
                   (skipn (run_length digit_or_comma s) s))].
Proof.
  intros H. unfold amount_re. cbn [match_here at_least at_most].
  apply backtrack_first; [exact H|].
  erewrite (backtrack_first _ 0); [reflexivity | apply Nat.le_0_l |].
  erewrite (backtrack_first _ 0); [reflexivity | apply Nat.le_0_l | reflexivity].
Qed.

Lemma match_amount_none (c : ascii) (s : str) :
  digit_or_comma c = false -> match_here amount_re false (c :: s) = None.
Proof.
  intros H. unfold amount_re. cbn [match_here at_least at_most run_length].
  rewrite H. reflexivity.
Qed.

Lemma search_amount_skip (c : ascii) (s : str) :
  digit_or_comma c = false -> search_amount (c :: s) = search_amount s.
Proof.
  intros H. unfold search_amount, search. cbn [search_from].
  rewrite (match_amount_none _ _ H), search_from_shift.
  destruct (search_from amount_re false s 0) as [[start ls]|]; reflexivity.
Qed.

Lemma search_amount_at (s : str) :
  1 <= run_length digit_or_comma s ->
  search_amount s
  = Some (firstn (run_length digit_or_comma s) s
          ++ firstn (Nat.min (run_length (is_char ".")
                                (skipn (run_length digit_or_comma s) s)) 1)
                    (skipn (run_length digit_or_comma s) s)
          ++ firstn (run_length is_digit
                       (skipn (Nat.min (run_length (is_char ".")
                                          (skipn (run_length digit_or_comma s) s)) 1)
                              (skipn (run_length digit_or_comma s) s)))
                    (skipn (Nat.min (run_length (is_char ".")
                                       (skipn (run_length digit_or_comma s) s)) 1)
                           (skipn (run_length digit_or_comma s) s))).
Proof.
  intros H. unfold search_amount, search.
  rewrite (search_from_here _ _ _ 0 _ (match_amount_greedy s H)).
  cbn [list_sum fold_right skipn]. rewrite Nat.add_0_r, !firstn_plus. reflexivity.
Qed.

Lemma run_length_rest (p : ascii -> bool) (s : str) :
  run_length p (skipn (run_length p s) s) = 0.
Proof.
  induction s as [|c s IH]; [reflexivity|]. cbn [run_length].
  destruct (p c) eqn:E; cbn [skipn]; [exact IH|]. cbn [run_length]. rewrite E. reflexivity.
Qed.

Lemma digits_at_digits (s : str) : forallb is_digit (digits_at s) = true.
Proof. exact (proj1 (run_length_firstn is_digit s _ (Nat.le_refl _))). Qed.

(** The search for the amount in a text without commas finds the amount
    written in it. *)
Lemma search_amount_text (s : str) :
  (forall c, In c s -> is_char "," c = false) ->
  match search_amount s with
  | Some m => float (remove_char "," m)
  | None => Ok (S754_zero false)
  end = Ok (amount_of_text s).
Proof.
  induction s as [|c s IH]; intros Hs; [reflexivity|].
  assert (Hs' : forall d, In d s -> is_char "," d = false)
    by (intros d Hd; apply Hs; right; exact Hd).
  destruct (is_digit c) eqn:Hc.
  - assert (Ha : 1 <= run_length is_digit (c :: s))
      by (cbn [run_length]; rewrite Hc; lia).
    pose proof (run_length_without_comma _ Hs) as Er.
    rewrite search_amount_at by (rewrite Er; exact Ha). rewrite Er.
    unfold amount_of_text. cbn [from_first_digit]. rewrite Hc.
    set (u := c :: s) in *. fold (digits_at u). fold (after_digits u).
    assert (Hw : forallb is_digit (digits_at u) = true) by apply digits_at_digits.
    assert (Ht : truthy (digits_at u) = true).
    { unfold digits_at. destruct (run_length_firstn is_digit u _ (Nat.le_refl _)) as [_ Hl].
      destruct (firstn (run_length is_digit u) u); [cbn [length] in Hl; lia | reflexivity]. }
    assert (Hrest : run_length is_digit (after_digits u) = 0) by apply run_length_rest.
    assert (Hfree : forall m, (forall d, In d m -> In d u) -> remove_char "," m = m).
    { intros m Hm. apply remove_char_none. intros d Hd. apply Hs, Hm, Hd. }
    destruct (after_digits u) as [|d r] eqn:Eu.
    + cbn [run_length Nat.min skipn firstn app]. rewrite !app_nil_r.
      rewrite Hfree by (intros x Hx; exact (in_firstn _ _ _ Hx)).
      rewrite (float_digits _ Hw Ht). reflexivity.
    + cbn [run_length]. destruct (is_char "." d) eqn:Ed.
      * assert (d = "."%char) as ->.
        { unfold is_char in Ed. destruct (ascii_dec d "."); [assumption | discriminate]. }
        rewrite Nat.min_r by lia.
        cbn [skipn firstn app]. fold (digits_at r).
        assert (Em : forall x, In x (digits_at u ++ "."%char :: digits_at r) -> In x u).
        { intros x Hx. apply in_app_or in Hx as [Hx|[<-|Hx]].
          - exact (in_firstn _ _ _ Hx).
          - apply (in_skipn (run_length is_digit u)). fold (after_digits u).
            rewrite Eu. left; reflexivity.
          - apply (in_skipn (run_length is_digit u)). fold (after_digits u).
            rewrite Eu. right. exact (in_firstn _ _ _ Hx). }
        rewrite (Hfree _ Em).
        rewrite (float_point _ _ Hw Ht (digits_at_digits r)). reflexivity.
      * cbn [Nat.min skipn]. cbn [run_length] in Hrest |- *.
        destruct (is_digit d); [discriminate|]. cbn [firstn app]. rewrite app_nil_r.
        rewrite Hfree by (intros x Hx; exact (in_firstn _ _ _ Hx)).
        rewrite (float_digits _ Hw Ht). reflexivity.
  - assert (Hd : digit_or_comma c = false).
    { unfold digit_or_comma. rewrite Hc, (Hs c (or_introl eq_refl)). reflexivity. }
    rewrite (search_amount_skip _ _ Hd).
    unfold amount_of_text. cbn [from_first_digit]. rewrite Hc. exact (IH Hs').
Qed.

(** [parse_amount] answers the amount written in its text, commas left out. *)
Lemma parse_amount_text (amount_str : str) :
  parse_amount amount_str = Ok (amount_of_text (remove_char "," amount_str)).
Proof.
  unfold parse_amount. destruct amount_str as [|c s]; [reflexivity|].
  cbn [truthy negb]. apply search_amount_text. intros d. apply remove_char_gone.
Qed.

Lemma amount_of_text_nonneg (t : str) : nonnegative (amount_of_text t).
Proof.
  unfold amount_of_text. destruct (from_first_digit t); [exact I|].
  apply binary64_of_decimal_nonneg.
Qed.


(** [parse_amount] never raises, and its answer is neither negative nor a NaN. *)
Lemma parse_amount_ok (amount_str : str) :
  exists q, parse_amount amount_str = Ok q /\ nonnegative q.
Proof.
  eexists. split; [apply parse_amount_text | apply amount_of_text_nonneg].
Qed.

(** ** Quantities *)

(** Both groups of a quantity match are non-empty. *)
Lemma search_qty_groups (s : str) (m : qty_match) :
  search_qty s = Some m -> truthy (group1 m) = true /\ truthy (group2 m) = true.
Proof.
  unfold search_qty, search.
  destruct (search_from qty_re true s 0) as [[start ls]|] eqn:E; [|discriminate].
  apply search_from_inv in E as (n & -> & E). cbn [Nat.add].
  apply match_here_cons in E as (a & ls1 & -> & Ha & E).
  apply match_here_cons in E as (b & ls2 & -> & Hb & E).
  apply match_here_cons in E as (c & ls3 & -> & Hc & E).
  apply match_here_cons in E as (d & ls4 & -> & Hd & E).
  apply match_here_cons in E as (e & ls5 & -> & He & E).
  cbn [match_here] in E. destruct (at_end _); [|discriminate]. injection E as <-.
  cbn [at_least at_most] in Ha, He.
  intros H; injection H as <-. cbn [group1 group2]. split.
  - rewrite <- Nat.add_assoc, firstn_plus.
    destruct (run_length_firstn digit_or_comma (skipn n s) a) as [_ Hl]; [lia|].
    destruct (firstn a (skipn n s)); [simpl in Hl; lia | reflexivity].
  - replace (n + a + b + c + d) with (d + (c + (b + (a + n)))) by lia.
    rewrite <- !skipn_skipn.
    destruct (run_length_firstn unit_char
                (skipn d (skipn c (skipn b (skipn a (skipn n s))))) e) as [_ Hl];
      [lia|].
    destruct (firstn e _); [simpl in Hl; lia | reflexivity].
Qed.

(** ** One line *)

Lemma rsplit1_shape (sep s : str) :
  rsplit1 sep s = [s] \/ exists a b, rsplit1 sep s = [a; b].
Proof.
  unfold rsplit1. destruct (rfind sep s); [right; eauto | left; reflexivity].
Qed.

(** What the usage-line branch can do: nothing, or append one record. *)
Lemma usage_line_cases (st : state) (service line : str) :
  usage_line st service line = Ok st \/
  exists r,
    usage_line st service line = Ok (append_record st r)
    /\ Service r = service
    /\ Region r = or_empty (current_region st)
    /\ truthy (Description r) = true
    /\ paired (Usage_Quantity r) (Usage_Unit r)
    /\ nonnegative (Amount r)
    /\ Amount_Unit r = lit "USD".
Proof.
  unfold usage_line.
  assert (Hparts : exists p0 amount,
             item (rsplit1 "USD" line) 0 = Ok p0 /\
             (if 1 <? length (rsplit1 "USD" line)
              then p1 <- item (rsplit1 "USD" line) 1 ;; Ok (lit "USD" ++ strip p1)
              else Ok []) = Ok amount).
  { destruct (rsplit1_shape "USD" line) as [E|(a & b & E)]; rewrite E;
      eexists; eexists; split; reflexivity. }
  destruct Hparts as (p0 & amount & -> & ->). cbn [bind].
  set (left_part := strip p0).
  assert (Hq : exists qty unit desc,
             match search_qty left_part with
             | Some m => (group1 m, group2 m, strip (firstn (m_start m) left_part))
             | None => ([], [], left_part)
             end = (qty, unit, desc) /\ paired qty unit).
  { destruct (search_qty left_part) as [m|] eqn:E.
    - exists (group1 m), (group2 m), (strip (firstn (m_start m) left_part)).
      split; [reflexivity|]. right. exact (search_qty_groups _ _ E).
    - exists [], [], left_part. split; [reflexivity|]. left; split; reflexivity. }
  destruct Hq as (qty & unit & desc & -> & Hp).
  destruct (truthy desc) eqn:Hd; cbn [andb]; [|left; reflexivity].
  destruct (truthy amount); [|left; reflexivity].
  destruct (parse_amount_ok amount) as (q & -> & Hq). cbn [bind].
  right. eexists; split; [reflexivity|]. cbn.
  repeat split; try reflexivity; assumption.
Qed.

Lemma service_keywords_truthy (svc : str) : In svc SERVICE_KEYWORDS -> truthy svc = true.
Proof.
  assert (H : forallb truthy SERVICE_KEYWORDS = true) by reflexivity.
  rewrite forallb_forall in H. apply H.
Qed.

Lemma region_keywords_truthy (region : str) : In region REGION_KEYWORDS -> truthy region = true.
Proof.
  assert (H : forallb truthy REGION_KEYWORDS = true) by reflexivity.
  rewrite forallb_forall in H. apply H.
Qed.

Lemma is_service_header_cases (line : str) :
  (is_service_header line = Ok (None, None)
   /\ (contains "USD" line = false
       \/ forall svc, In svc SERVICE_KEYWORDS -> startswith line svc = false))
  \/ exists svc before after,
       is_service_header line = Ok (Some svc, Some (lit "USD" ++ strip after))
       /\ In svc SERVICE_KEYWORDS /\ startswith line svc = true
       /\ contains "USD" line = true
       /\ line = before ++ lit "USD" ++ after /\ contains "USD" after = false.
Proof.
  unfold is_service_header.
  destruct (contains "USD" line) eqn:Hc.
  - destruct (last_occurrence (lit "USD") line eq_refl Hc) as (a & b & E & Hb).
    pose proof (service_header_in_USD SERVICE_KEYWORDS a b Hb) as Hh.
    rewrite <- E in Hh. rewrite Hh. clear Hh.
    destruct (find (startswith line) SERVICE_KEYWORDS) as [svc|] eqn:F.
    + right. apply find_some in F as [F1 F2]. exists svc, a, b. auto 6.
    + left. split; [reflexivity|]. right. exact (find_none _ _ F).
  - left. rewrite (service_header_in_no_USD _ _ Hc). auto.
Qed.

Lemma is_region_header_cases (line : str) :
  (is_region_header line = Ok (None, None)
   /\ forall region, In region REGION_KEYWORDS -> startswith line region = false)
  \/ exists region total,
       is_region_header line = Ok (Some region, Some total)
       /\ In region REGION_KEYWORDS /\ startswith line region = true.
Proof.
  unfold is_region_header.
  destruct (region_header_in_find REGION_KEYWORDS line) as [total ->].
  destruct (find (startswith line) REGION_KEYWORDS) as [region|] eqn:F.
  - right. apply find_some in F as [F1 F2]. exists region, total. auto.
  - left. split; [reflexivity | exact (find_none _ _ F)].
Qed.

(** Every pass through the loop body succeeds, moves the index on by one and
    has one of the effects above. *)
Lemma iteration_effect (st : state) (line : str) :
  exists st', effect st line st' /\ forall i, iteration i st line = Ok (S i, st').
Proof.
  unfold iteration.
  destruct (truthy line); cbn [negb]; [|exists st; split; [constructor | reflexivity]].
  destruct (contains "Charges by service" line);
    [exists st; split; [constructor | reflexivity]|].
  destruct (is_service_header_cases line)
    as [[-> _]|(svc & before & after & -> & Hin & Hs & Hc & _)];
    cbn [bind named].
  2:{ rewrite (service_keywords_truthy _ Hin).
      eexists; split; [|reflexivity]. apply Service_header; assumption. }
  destruct (current_service st) as [service|] eqn:Hsvc;
    [|exists st; split; [constructor | reflexivity]].
  destruct (truthy service) eqn:Ht; [|exists st; split; [constructor | reflexivity]].
  destruct (is_region_header_cases line) as [[-> _]|(region & rtotal & -> & Hin & Hs)];
    cbn [bind named].
  2:{ rewrite (region_keywords_truthy _ Hin).
      eexists; split; [|reflexivity]. eapply Region_header; eassumption. }
  destruct (sub_service_prefix line).
  - destruct (contains "USD" line) eqn:Hc; [|exists st; split; [constructor | reflexivity]].
    destruct (rsplit1_shape "USD" line) as [E|(a & b & E)]; rewrite E; cbn [item nth_error bind];
      (eexists; split; [|reflexivity]); eapply Sub_service_header; eassumption.
  - destruct (contains "USD" line) eqn:Hc; [|exists st; split; [constructor | reflexivity]].
    destruct (usage_line_cases st service line) as [->|(r & -> & H1 & H2 & H3 & H4 & H5 & H6)];
      cbn [bind].
    + exists st; split; [constructor | reflexivity].
    + eexists; split; [|reflexivity]. eapply Usage_line; eassumption.
Qed.

Lemma iteration_step (i : nat) (st : state) (line : str) :
  iteration i st line = Ok (S i, step st line).
Proof.
  destruct (iteration_effect st line) as (st' & _ & H).
  unfold step. rewrite (H 0). apply H.
Qed.

Lemma step_effect (st : state) (line : str) : effect st line (step st line).
Proof.
  destruct (iteration_effect st line) as (st' & He & H).
  unfold step. rewrite (H 0). exact He.
Qed.

Lemma item_skipn (lines : list str) (i : nat) :
  i < length lines ->
  exists line rest, item lines i = Ok line /\ skipn i lines = line :: rest
                    /\ skipn (S i) lines = rest.
Proof.
  revert i; induction lines as [|l lines IH]; intros i H; [simpl in H; lia|].
  destruct i as [|i].
  - exists l, lines. repeat split.
  - destruct (IH i) as (line & rest & H1 & H2 & H3); [simpl in H; lia|].
    exists line, rest. repeat split; assumption.
Qed.

Lemma loop_run (fuel : nat) (lines : list str) (i : nat) (st : state) :
  length lines - i <= fuel ->
  loop fuel lines i st = Ok (csv_data (run st (skipn i lines))).
Proof.
  revert i st; induction fuel as [|fuel IH]; intros i st H.
  - cbn [loop]. destruct (i <? length lines) eqn:Hi.
    + apply Nat.ltb_lt in Hi. lia.
    + apply Nat.ltb_ge in Hi. rewrite skipn_all2 by exact Hi. reflexivity.
  - cbn [loop]. destruct (i <? length lines) eqn:Hi.
    + apply Nat.ltb_lt in Hi.
      destruct (item_skipn lines i Hi) as (line & rest & -> & E1 & E2).
      cbn [bind]. rewrite iteration_step. cbn [bind fst snd].
      rewrite IH by lia. rewrite E1, E2. reflexivity.
    + apply Nat.ltb_ge in Hi. rewrite skipn_all2 by exact Hi. reflexivity.
Qed.

Lemma parse_run (lines : list str) :
  _parse_lines_to_csv_data lines = Ok (csv_data (run initial lines)).
Proof.
  unfold _parse_lines_to_csv_data. rewrite loop_run by lia. reflexivity.
Qed.

(** ** Invariants of the loop *)

Section Invariant.

Variable P : state -> Prop.
Hypothesis P_effect : forall st line st', P st -> effect st line st' -> P st'.

Lemma run_preserves (lines : list str) (st : state) : P st -> P (run st lines).
Proof.
  revert st; induction lines as [|line lines IH]; intros st H; [exact H|].
  apply IH. apply (P_effect st line); [exact H | apply step_effect].
Qed.

End Invariant.

Section Records.

(** A property that every appended record has holds of every record of the
    result. *)
Variable good : UsageRecord -> Prop.
Variable inv : state -> Prop.
Hypothesis inv_initial : inv initial.
Hypothesis inv_effect : forall st line st', inv st -> effect st line st' -> inv st'.
Hypothesis good_appended :
  forall st line r, inv st -> effect st line (append_record st r) -> good r.

Lemma csv_data_effect (st : state) (line : str) (st' : state) :
  effect st line st' ->
  csv_data st' = csv_data st \/
  exists r, st' = append_record st r.
Proof.
  intros H; destruct H; try (left; reflexivity). right; eauto.
Qed.

Lemma all_records_good (lines : list str) (recs : list UsageRecord) (r : UsageRecord) :
  _parse_lines_to_csv_data lines = Ok recs -> In r recs -> good r.
Proof.
  rewrite parse_run. intros H; injection H as <-.
  assert (Hrun : inv (run initial lines) /\ Forall good (csv_data (run initial lines))).
  { apply (run_preserves (fun st => inv st /\ Forall good (csv_data st))).
    - intros st line st' [Hi Hg] He. split; [exact (inv_effect _ _ _ Hi He)|].
      destruct (csv_data_effect _ _ _ He) as [->|[r' ->]]; [exact Hg|].
      cbn [append_record csv_data]. apply Forall_app. split; [exact Hg|].
      constructor; [|constructor].
      apply (good_appended st line); [exact Hi | exact He].
    - split; [exact inv_initial | constructor]. }
  destruct Hrun as [_ Hg]. rewrite Forall_forall in Hg. apply Hg.
Qed.

End Records.

(** An appended record, seen through [effect]. *)
Lemma effect_append (st : state) (line : str) (r : UsageRecord) :
  effect st line (append_record st r) ->
  exists service,
    current_service st = Some service /\ truthy service = true
    /\ contains "USD" line = true
    /\ Service r = service /\ Region r = or_empty (current_region st)
    /\ truthy (Description r) = true
    /\ paired (Usage_Quantity r) (Usage_Unit r)
    /\ nonnegative (Amount r) /\ Amount_Unit r = lit "USD".
Proof.
  intros H.
  assert (Hlen : length (csv_data (append_record st r)) = S (length (csv_data st))).
  { cbn. rewrite length_app. simpl. lia. }
  remember (append_record st r) as st' eqn:E.
  destruct H as [| svc total | service region | service name | service r'];
    try (rewrite E in Hlen; exfalso; cbn in Hlen; rewrite ?length_app in Hlen;
         simpl in Hlen; lia);
    try (exfalso; cbn in Hlen; lia).
  assert (r' = r).
  { apply (f_equal csv_data) in E. cbn in E. apply app_inv_head in E.
    injection E as E; exact E. }
  subst r'. exists service. repeat split; assumption.
Qed.

(** ** The claims *)

(** C1.  On the four lines of the example the parse emits exactly one record:
    Service "Lambda", Region "Asia Pacific (Seoul)", Description
    "$0.0000002 per request", Usage_Quantity "60,000,000", Usage_Unit
    "Requests", Amount 12.00 and Amount_Unit "USD". *)
Theorem example_one_record :
  _parse_lines_to_csv_data example_lines
  = Ok [ {| Service := "Lambda";
            Region := "Asia Pacific (Seoul)";
            Description := "$0.0000002 per request";
            Usage_Quantity := "60,000,000";
            Usage_Unit := "Requests";
            Amount := float_12;
            Amount_Unit := "USD" |} ].
Proof. vm_compute. reflexivity. Qed.

(** C9.  In every emitted record Usage_Quantity and Usage_Unit are both empty
    or both non-empty. *)
Theorem quantity_and_unit_together (lines : list str) (recs : list UsageRecord)
        (r : UsageRecord) :
  _parse_lines_to_csv_data lines = Ok recs -> In r recs ->
  (Usage_Quantity r = [] /\ Usage_Unit r = [])
  \/ (Usage_Quantity r <> [] /\ Usage_Unit r <> []).
Proof.
  apply (all_records_good
           (fun r => (Usage_Quantity r = [] /\ Usage_Unit r = [])
                     \/ (Usage_Quantity r <> [] /\ Usage_Unit r <> []))
           (fun _ => True)); [exact I | trivial |].
  intros st line r' _ He.
  destruct (effect_append _ _ _ He) as (service & _ & _ & _ & _ & _ & _ & Hp & _).
  destruct Hp as [Hp|[H1 H2]]; [left; exact Hp | right].
  split; intros E; rewrite E in *; discriminate.
Qed.

Lemma names_known_effect (st : state) (line : str) (st' : state) :
  names_known st -> effect st line st' -> names_known st'.
Proof.
  intros [Hs Hr] He.
  destruct He; unfold names_known; cbn; try (split; assumption).
  - split; [intros s E; injection E as <-; assumption | discriminate].
  - split; [assumption | intros s E; injection E as <-; assumption].
Qed.

(** C10.  In every emitted record Service is one of SERVICE_KEYWORDS and
    Region is empty or one of REGION_KEYWORDS. *)
Theorem service_and_region_from_vocabulary (lines : list str)
        (recs : list UsageRecord) (r : UsageRecord) :
  _parse_lines_to_csv_data lines = Ok recs -> In r recs ->
  In (Service r) SERVICE_KEYWORDS
  /\ (Region r = [] \/ In (Region r) REGION_KEYWORDS).
Proof.
  apply (all_records_good
           (fun r => In (Service r) SERVICE_KEYWORDS
                     /\ (Region r = [] \/ In (Region r) REGION_KEYWORDS))
           names_known).
  - split; discriminate.
  - exact names_known_effect.
  - intros st line r' [Hs Hr] He.
    destruct (effect_append _ _ _ He) as (service & Hc & _ & _ & H1 & H2 & _).
    split.
    + rewrite H1. apply Hs, Hc.
    + rewrite H2. destruct (current_region st) as [region|]; [right | left; reflexivity].
      apply Hr. reflexivity.
Qed.

(** C4.  When "USD" occurs on no line the parse answers the empty list. *)
Theorem no_USD_no_records (lines : list str) :
  (forall line, In line lines -> contains "USD" line = false) ->
  _parse_lines_to_csv_data lines = Ok [].
Proof.
  intros H. rewrite parse_run. f_equal.
  assert (G : forall st, csv_data st = [] -> csv_data (run st lines) = []).
  { induction lines as [|line lines IH]; intros st Hst; [exact Hst|].
    apply IH; [intros l Hl; apply H; right; exact Hl|].
    assert (Hline : contains "USD" line = false) by (apply H; left; reflexivity).
    destruct (step_effect st line); cbn; try assumption; congruence. }
  apply G. reflexivity.
Qed.

(** C8.  The parse of any list of lines returns a record list, within one pass
    of the loop body per line, and every pass through the body succeeds and
    moves the index on by exactly one. *)
Theorem parse_terminates_without_error (lines : list str) :
  (exists recs, _parse_lines_to_csv_data lines = Ok recs)
  /\ (forall i st line, exists st', iteration i st line = Ok (S i, st')).
Proof.
  split.
  - eexists. apply parse_run.
  - intros i st line. eexists. apply iteration_step.
Qed.

(** ** The vocabularies *)

Lemma prefixes_comparable (l a b : str) :
  startswith l a = true -> startswith l b = true ->
  startswith a b = true \/ startswith b a = true.
Proof.
  revert l b; induction a as [|x a IH]; intros l b Ha Hb; [right; reflexivity|].
  destruct b as [|y b]; [left; reflexivity|].
  destruct l as [|c l]; [discriminate|].
  cbn [startswith] in *.
  destruct (ascii_dec c x) as [->|]; [|discriminate].
  destruct (ascii_dec x y) as [->|]; [|discriminate].
  destruct (ascii_dec y y); [|congruence].
  exact (IH _ _ Ha Hb).
Qed.

(** No service name is a prefix of another one. *)
Lemma service_prefix_unique (line a b : str) :
  In a SERVICE_KEYWORDS -> In b SERVICE_KEYWORDS ->
  startswith line a = true -> startswith line b = true -> a = b.
Proof.
  intros Ha Hb Hla Hlb.
  assert (H : forallb (fun a => forallb (fun b => str_eqb a b || negb (comparable a b))
                                        SERVICE_KEYWORDS) SERVICE_KEYWORDS = true)
    by (vm_compute; reflexivity).
  rewrite forallb_forall in H. specialize (H a Ha).
  rewrite forallb_forall in H. specialize (H b Hb).
  unfold str_eqb in H. destruct (list_eq_dec ascii_dec a b) as [E|_]; [exact E|].
  unfold comparable in H.
  destruct (prefixes_comparable _ _ _ Hla Hlb) as [Hc|Hc]; rewrite Hc in H;
    [|rewrite orb_true_r in H]; discriminate.
Qed.

(** No line starts with both a service name and a region name. *)
Lemma service_region_apart (line svc region : str) :
  In svc SERVICE_KEYWORDS -> In region REGION_KEYWORDS ->
  startswith line svc = true -> startswith line region = true -> False.
Proof.
  intros Hs Hr Hls Hlr.
  assert (H : forallb (fun a => forallb (fun b => negb (comparable a b))
                                        REGION_KEYWORDS) SERVICE_KEYWORDS = true)
    by (vm_compute; reflexivity).
  rewrite forallb_forall in H. specialize (H svc Hs).
  rewrite forallb_forall in H. specialize (H region Hr).
  unfold comparable in H.
  destruct (prefixes_comparable _ _ _ Hls Hlr) as [Hc|Hc]; rewrite Hc in H;
    [|rewrite orb_true_r in H]; discriminate.
Qed.

(** No service name has the letter U, so a "USD" in a line that starts with a
    service name lies after the name. *)
Lemma service_without_U (svc : str) : In svc SERVICE_KEYWORDS -> ~ In "U"%char svc.
Proof.
  intros Hs Hu.
  assert (H : forallb (fun s => negb (existsb (is_char "U") s)) SERVICE_KEYWORDS = true)
    by (vm_compute; reflexivity).
  rewrite forallb_forall in H. specialize (H svc Hs).
  apply negb_true_iff in H.
  assert (E : existsb (is_char "U") svc = true).
  { apply existsb_exists. exists "U"%char. split; [exact Hu | reflexivity]. }
  congruence.
Qed.

Lemma USD_after_service (svc rest : str) :
  In svc SERVICE_KEYWORDS -> contains "USD" (svc ++ rest) = contains "USD" rest.
Proof.
  intros Hs. apply (contains_past_prefix "U"%char (lit "SD")).
  apply service_without_U, Hs.
Qed.

(** C5, as amended.  The Service Header classifier succeeds exactly when the
    line starts with one of the known service names and contains "USD" after
    that prefix; it then answers that name together with "USD" followed by
    the trimmed text after the last "USD" of the line; otherwise it answers
    the pair of [None]s and does not raise. *)
Theorem service_header_classifier (line : str) :
  (forall svc total,
      is_service_header line = Ok (Some svc, Some total) <->
      In svc SERVICE_KEYWORDS
      /\ (exists rest, line = svc ++ rest /\ contains "USD" rest = true)
      /\ (exists before after,
             line = before ++ lit "USD" ++ after
             /\ contains "USD" after = false
             /\ total = lit "USD" ++ strip after))
  /\ (is_service_header line = Ok (None, None) <->
      forall svc rest, In svc SERVICE_KEYWORDS -> line = svc ++ rest ->
                       contains "USD" rest = false).
Proof.
  destruct (is_service_header_cases line)
    as [[E Hno]|(svc0 & before & after & E & Hin & Hs & Hc & Hl & Ha)].
  - split.
    + intros svc total. split.
      * rewrite E. discriminate.
      * intros (Hi & (rest & -> & Hr) & _). exfalso.
        destruct Hno as [Hno|Hno].
        -- rewrite (USD_after_service _ _ Hi) in Hno. congruence.
        -- specialize (Hno svc Hi). rewrite startswith_app in Hno. discriminate.
    + split; [|intros _; exact E].
      intros _ svc rest Hi ->.
      destruct Hno as [Hno|Hno].
      * rewrite <- (USD_after_service _ _ Hi). exact Hno.
      * specialize (Hno svc Hi). rewrite startswith_app in Hno. discriminate.
  - destruct (startswith_inv _ _ Hs) as [rest0 El].
    split.
    + intros svc total. split.
      * rewrite E. intros H; injection H as <- <-.
        split; [exact Hin|]. split.
        -- exists rest0. split; [exact El|].
           rewrite <- (USD_after_service _ _ Hin), <- El. exact Hc.
        -- exists before, after. auto.
      * intros (Hi & (rest & Er & Hr) & (b' & a' & Hl' & Ha' & ->)).
        assert (svc = svc0).
        { apply (service_prefix_unique line); try assumption.
          rewrite Er. apply startswith_app. }
        subst svc.
        assert (Eq : @Ok str a' = Ok after).
        { transitivity (last_item (split "USD" line)).
          - rewrite Hl'. symmetry. apply last_split_USD, Ha'.
          - rewrite Hl. apply last_split_USD, Ha. }
        injection Eq as ->. exact E.
    + split; [rewrite E; discriminate|].
      intros H. specialize (H svc0 rest0 Hin El).
      rewrite <- (USD_after_service _ _ Hin), <- El in H. congruence.
Qed.

Lemma run_app (st : state) (a b : list str) : run st (a ++ b) = run (run st a) b.
Proof. apply fold_left_app. Qed.

Lemma step_region_without_service (st : state) (line region : str) :
  current_service st = None -> In region REGION_KEYWORDS ->
  startswith line region = true -> step st line = st.
Proof.
  intros Hn Hr Hs.
  destruct (step_effect st line) as [| svc total Hi Hl _ | | |]; try congruence.
  exfalso. exact (service_region_apart _ _ _ Hi Hr Hl Hs).
Qed.

(** C6.  A line that starts with a region name and is processed while no
    service is current is ignored: the parse succeeds, the variables of the
    loop are unchanged, and the result is that of the input without the line. *)
Theorem region_header_without_service_ignored (pre post : list str) (line region : str) :
  current_service (run initial pre) = None ->
  In region REGION_KEYWORDS -> startswith line region = true ->
  step (run initial pre) line = run initial pre
  /\ exists recs,
       _parse_lines_to_csv_data (pre ++ line :: post) = Ok recs
       /\ _parse_lines_to_csv_data (pre ++ post) = Ok recs.
Proof.
  intros Hn Hr Hs.
  pose proof (step_region_without_service _ _ _ Hn Hr Hs) as E.
  split; [exact E|].
  exists (csv_data (run initial (pre ++ post))). split; [|apply parse_run].
  rewrite parse_run, !run_app. cbn [run fold_left]. rewrite E. reflexivity.
Qed.

Lemma step_skipped (st : state) (line : str) :
  truthy line && negb (contains "Charges by service" line) = false ->
  step st line = st.
Proof.
  intros H. unfold step, iteration.
  destruct (truthy line); [|reflexivity].
  destruct (contains "Charges by service" line); [reflexivity | discriminate].
Qed.

Lemma run_normalized_empty (lines : list str) (st : state) :
  normalized lines = [] -> run st lines = st.
Proof.
  induction lines as [|line lines IH]; intros H; [reflexivity|].
  unfold normalized in H. cbn [filter] in H.
  destruct (truthy line && negb (contains "Charges by service" line)) eqn:E;
    [discriminate|].
  cbn [run fold_left]. rewrite (step_skipped _ _ E). apply IH, H.
Qed.

(** C7, as amended.  The result does not tell the two conditions apart: an
    input of which no line survives normalization and an input with surviving
    lines that parses to no record give the same answer, the empty list. *)
Theorem empty_and_unrecognized_alike (lines1 lines2 : list str) :
  normalized lines1 = [] ->
  normalized lines2 <> [] -> _parse_lines_to_csv_data lines2 = Ok [] ->
  _parse_lines_to_csv_data lines1 = _parse_lines_to_csv_data lines2.
Proof.
  intros H1 _ H2. rewrite H2, parse_run, (run_normalized_empty _ _ H1). reflexivity.
Qed.


(** ** Concrete runs *)



(** C5 fails as stated: on "Lambda USD 12.00" the total answered is
    "USD12.00", while the text from "USD" to the end of the line, trimmed, is
    "USD 12.00". *)
Lemma service_total_counterexample :
  is_service_header "Lambda USD 12.00" = Ok (Some (lit "Lambda"), Some (lit "USD12.00"))
  /\ stated_total "Lambda USD 12.00" = lit "USD 12.00"
  /\ is_service_header "Lambda USD 12.00"
     <> Ok (Some (lit "Lambda"), Some (stated_total "Lambda USD 12.00")).
Proof.
  split; [vm_compute; reflexivity|]. split; [vm_compute; reflexivity|].
  vm_compute. discriminate.
Qed.

(** C7 fails as stated: the empty input and the one-line input
    "Invoice total 12.00", which survives normalization, both give the empty
    list, so nothing computed from the result tells them apart. *)
Lemma empty_and_unrecognized_counterexample :
  normalized [] = []
  /\ normalized [lit "Invoice total 12.00"] <> []
  /\ _parse_lines_to_csv_data [] = Ok []
  /\ _parse_lines_to_csv_data [lit "Invoice total 12.00"] = Ok []
  /\ ~ exists tell : outcome (list UsageRecord) -> bool,
         forall lines,
           (normalized lines = [] -> tell (_parse_lines_to_csv_data lines) = true)
           /\ (normalized lines <> [] -> _parse_lines_to_csv_data lines = Ok [] ->
               tell (_parse_lines_to_csv_data lines) = false).
Proof.
  assert (H1 : normalized [] = []) by reflexivity.
  assert (H2 : normalized [lit "Invoice total 12.00"] <> []) by (vm_compute; discriminate).
  assert (H3 : _parse_lines_to_csv_data [] = Ok []) by reflexivity.
  assert (H4 : _parse_lines_to_csv_data [lit "Invoice total 12.00"] = Ok [])
    by (vm_compute; reflexivity).
  repeat split; try assumption.
  intros [tell Htell].
  destruct (Htell []) as [Ha _]. destruct (Htell [lit "Invoice total 12.00"]) as [_ Hb].
  specialize (Ha H1). specialize (Hb H2 H4). rewrite H3 in Ha. rewrite H4 in Hb.
  congruence.
Qed.

(** The quantity and unit of the record of the example. *)
Lemma quantity_and_unit_together_witness :
  _parse_lines_to_csv_data example_lines = Ok [example_record]
  /\ In example_record [example_record]
  /\ ((Usage_Quantity example_record = [] /\ Usage_Unit example_record = [])
      \/ (Usage_Quantity example_record <> [] /\ Usage_Unit example_record <> [])).
Proof.
  assert (H1 : _parse_lines_to_csv_data example_lines = Ok [example_record])
    by (vm_compute; reflexivity).
  assert (H2 : In example_record [example_record]) by (left; reflexivity).
  split; [exact H1|]. split; [exact H2|].
  exact (quantity_and_unit_together example_lines [example_record] example_record H1 H2).
Defined.

(** The names of the record of the example. *)
Lemma service_and_region_from_vocabulary_witness :
  _parse_lines_to_csv_data example_lines = Ok [example_record]
  /\ In example_record [example_record]
  /\ In (Service example_record) SERVICE_KEYWORDS
  /\ (Region example_record = [] \/ In (Region example_record) REGION_KEYWORDS).
Proof.
  assert (H1 : _parse_lines_to_csv_data example_lines = Ok [example_record])
    by (vm_compute; reflexivity).
  assert (H2 : In example_record [example_record]) by (left; reflexivity).
  split; [exact H1|]. split; [exact H2|].
  exact (service_and_region_from_vocabulary example_lines [example_record]
           example_record H1 H2).
Defined.

(** Two lines without "USD". *)
Lemma no_USD_no_records_witness :
  (forall line, In line [lit "Lambda 12.00"; lit "hello"] -> contains "USD" line = false)
  /\ _parse_lines_to_csv_data [lit "Lambda 12.00"; lit "hello"] = Ok [].
Proof.
  assert (H : forall line, In line [lit "Lambda 12.00"; lit "hello"] ->
                           contains "USD" line = false).
  { intros line [<-|[<-|[]]]; vm_compute; reflexivity. }
  split; [exact H|].
  exact (no_USD_no_records [lit "Lambda 12.00"; lit "hello"] H).
Defined.

(** A region line before any service header. *)
Lemma region_header_without_service_ignored_witness :
  current_service (run initial [lit "Billing summary"]) = None
  /\ In (lit "Asia Pacific (Seoul)") REGION_KEYWORDS
  /\ startswith "Asia Pacific (Seoul) USD 12.00" "Asia Pacific (Seoul)" = true
  /\ step (run initial [lit "Billing summary"]) "Asia Pacific (Seoul) USD 12.00"
     = run initial [lit "Billing summary"]
  /\ exists recs,
       _parse_lines_to_csv_data
         ([lit "Billing summary"] ++ lit "Asia Pacific (Seoul) USD 12.00"
                                 :: [lit "fee USD 3.00"]) = Ok recs
       /\ _parse_lines_to_csv_data ([lit "Billing summary"] ++ [lit "fee USD 3.00"])
          = Ok recs.
Proof.
  assert (H1 : current_service (run initial [lit "Billing summary"]) = None)
    by (vm_compute; reflexivity).
  assert (H2 : In (lit "Asia Pacific (Seoul)") REGION_KEYWORDS) by (left; reflexivity).
  assert (H3 : startswith "Asia Pacific (Seoul) USD 12.00" "Asia Pacific (Seoul)" = true)
    by (vm_compute; reflexivity).
  split; [exact H1|]. split; [exact H2|]. split; [exact H3|].
  exact (region_header_without_service_ignored
           [lit "Billing summary"] [lit "fee USD 3.00"]
           "Asia Pacific (Seoul) USD 12.00" "Asia Pacific (Seoul)" H1 H2 H3).
Defined.

(** An input that is skipped whole and one that is read and yields nothing. *)
Lemma empty_and_unrecognized_alike_witness :
  normalized [[]; lit "Charges by service"] = []
  /\ normalized [lit "Invoice total 12.00"] <> []
  /\ _parse_lines_to_csv_data [lit "Invoice total 12.00"] = Ok []
  /\ _parse_lines_to_csv_data [[]; lit "Charges by service"]
     = _parse_lines_to_csv_data [lit "Invoice total 12.00"].
Proof.
  assert (H1 : normalized [[]; lit "Charges by service"] = [])
    by (vm_compute; reflexivity).
  assert (H2 : normalized [lit "Invoice total 12.00"] <> [])
    by (vm_compute; discriminate).
  assert (H3 : _parse_lines_to_csv_data [lit "Invoice total 12.00"] = Ok [])
    by (vm_compute; reflexivity).
  split; [exact H1|]. split; [exact H2|]. split; [exact H3|].
  exact (empty_and_unrecognized_alike _ _ H1 H2 H3).
Defined.

(** * Further properties *)

(** ** [strip] *)

Lemma lstrip_idem (s : str) : lstrip (lstrip s) = lstrip s.
Proof.
  induction s as [|c s IH]; [reflexivity|].
  cbn [lstrip]. destruct (is_space c) eqn:E; [exact IH|].
  cbn [lstrip]. rewrite E. reflexivity.
Qed.

Lemma lstrip_spaces (w s : str) : forallb is_space w = true -> lstrip (w ++ s) = lstrip s.
Proof.
  induction w as [|c w IH]; [reflexivity|]. cbn [forallb app lstrip].
  intros H. apply andb_true_iff in H as [-> H]. exact (IH H).
Qed.

(** [lstrip] cuts a run of blanks off the front and leaves text that does not
    start with a blank. *)
Lemma lstrip_split (s : str) :
  exists w, s = w ++ lstrip s /\ forallb is_space w = true
            /\ lstrip (lstrip s) = lstrip s.
Proof.
  induction s as [|c s (w & E & Hw & Hi)].
  - exists []. repeat split.
  - cbn [lstrip]. destruct (is_space c) eqn:Hc.
    + exists (c :: w). cbn [app forallb]. rewrite Hc, Hw, <- E. repeat split. exact Hi.
    + exists []. repeat split. cbn [lstrip]. rewrite Hc. reflexivity.
Qed.

Lemma lstrip_fixed_app (a b : str) : truthy a = true -> lstrip (a ++ b) = a ++ b -> lstrip a = a.
Proof.
  destruct a as [|c a]; [discriminate|]. intros _. cbn [app lstrip].
  destruct (is_space c); [|reflexivity].
  intros H. exfalso.
  destruct (lstrip_split (a ++ b)) as (w & E & _ & _).
  apply (f_equal (@length ascii)) in E. rewrite H in E.
  rewrite !length_app in E. cbn [length] in E. rewrite length_app in E. lia.
Qed.

Lemma rstrip_idem (s : str) : rstrip (rstrip s) = rstrip s.
Proof. unfold rstrip. rewrite rev_involutive, lstrip_idem. reflexivity. Qed.

Lemma rstrip_prefix (s : str) : exists w, s = rstrip s ++ w.
Proof.
  unfold rstrip. destruct (lstrip_split (rev s)) as (w & E & _ & _).
  exists (rev w). rewrite <- rev_app_distr, <- E, rev_involutive. reflexivity.
Qed.

Lemma lstrip_rstrip (s : str) : lstrip s = s -> lstrip (rstrip s) = rstrip s.
Proof.
  intros H. destruct (rstrip_prefix s) as [w E].
  destruct (rstrip s) as [|c r] eqn:Er; [reflexivity|].
  apply (lstrip_fixed_app (c :: r) w); [reflexivity|]. rewrite <- E. exact H.
Qed.

(** Stripped text stays as it is when stripped again. *)
Lemma strip_idem (s : str) : strip (strip s) = strip s.
Proof.
  unfold strip. rewrite (lstrip_rstrip (lstrip s) (lstrip_idem s)).
  apply rstrip_idem.
Qed.

(** ** [rfind] and [rsplit1] *)

Lemma rfind_found (sep s : str) :
  contains sep s = true -> exists k, rfind sep s = Some k.
Proof.
  induction s as [|c s IH]; intros H.
  - cbn in H. rewrite orb_false_r in H. cbn [rfind]. rewrite H. eauto.
  - rewrite contains_cons in H. cbn [rfind].
    destruct (rfind sep s) as [k|]; [eauto|].
    destruct (startswith (c :: s) sep); [eauto|].
    cbn [orb] in H. destruct (IH H) as [k Hk]. discriminate.
Qed.

Lemma rfind_occurs (sep s : str) (k : nat) :
  rfind sep s = Some k -> s = firstn k s ++ sep ++ skipn (k + length sep) s.
Proof.
  revert k; induction s as [|c s IH]; intros k H; cbn [rfind] in H.
  - destruct (startswith [] sep) eqn:E; [|discriminate]. injection H as <-.
    apply startswith_nil in E. subst sep. reflexivity.
  - destruct (rfind sep s) as [j|] eqn:Ej.
    + injection H as <-. cbn [firstn Nat.add skipn app]. f_equal. apply IH. reflexivity.
    + destruct (startswith (c :: s) sep) eqn:E; [|discriminate]. injection H as <-.
      destruct (startswith_inv _ _ E) as [rest Er]. cbn [firstn Nat.add app].
      rewrite Er at 2. rewrite skipn_length_app. exact Er.
Qed.


(** With the pattern present, [rsplit1] answers exactly two parts that put the
    text back together around the pattern. *)
Lemma rsplit1_two (sep s : str) :
  contains sep s = true ->
  exists a b, rsplit1 sep s = [a; b] /\ s = a ++ sep ++ b.
Proof.
  intros H. destruct (rfind_found _ _ H) as [k Hk].
  unfold rsplit1. rewrite Hk. eexists _, _. split; [reflexivity|].
  apply rfind_occurs, Hk.
Qed.

(** ** Records of the flat parse, one usage line at a time *)

Lemma search_qty_shape (s : str) (m : qty_match) :
  search_qty s = Some m ->
  forallb quantity_char (group1 m) = true /\ forallb unit_char (group2 m) = true.
Proof.
  unfold search_qty, search.
  destruct (search_from qty_re true s 0) as [[start ls]|] eqn:E; [|discriminate].
  apply search_from_inv in E as (n & -> & E). cbn [Nat.add].
  apply match_here_cons in E as (a & ls1 & -> & Ha & E).
  apply match_here_cons in E as (b & ls2 & -> & Hb & E).
  apply match_here_cons in E as (c & ls3 & -> & Hc & E).
  apply match_here_cons in E as (d & ls4 & -> & Hd & E).
  apply match_here_cons in E as (e & ls5 & -> & He & E).
  cbn [match_here] in E. destruct (at_end _); [|discriminate]. injection E as <-.
  cbn [at_least at_most] in Ha, Hb, Hc, He.
  intros H; injection H as <-. cbn [group1 group2]. split.
  - rewrite <- Nat.add_assoc, !firstn_plus, !forallb_app.
    destruct (run_length_firstn digit_or_comma (skipn n s) a) as [H1 _]; [lia|].
    destruct (run_length_firstn (is_char ".") (skipn a (skipn n s)) b) as [H2 _]; [lia|].
    destruct (run_length_firstn is_digit (skipn b (skipn a (skipn n s))) c) as [H3 _]; [lia|].
    assert (G : forall p (x : str), (forall ch, p ch = true -> quantity_char ch = true) ->
                                     forallb p x = true -> forallb quantity_char x = true).
    { intros p x Hp Hx. rewrite forallb_forall in *. intros ch Hch. apply Hp, Hx, Hch. }
    rewrite (G _ _ (fun ch Hch => proj2 (orb_true_iff _ _) (or_introl Hch)) H1).
    rewrite (G _ _ (fun ch Hch => proj2 (orb_true_iff _ _) (or_intror Hch)) H2).
    rewrite (G is_digit _); [reflexivity | | exact H3].
    intros ch Hch. unfold quantity_char, digit_or_comma. rewrite Hch. reflexivity.
  - replace (n + a + b + c + d) with (d + (c + (b + (a + n)))) by lia.
    rewrite <- !skipn_skipn.
    destruct (run_length_firstn unit_char
                (skipn d (skipn c (skipn b (skipn a (skipn n s))))) e) as [Hl _];
      [lia | exact Hl].
Qed.

(** The usage-line branch leaves the variables alone or appends one record,
    built from the stripped text before the last "USD". *)
Lemma usage_line_record (st : state) (service line : str) :
  usage_line st service line = Ok st \/
  exists p0 amount a qty unit desc,
    usage_line st service line
    = Ok (append_record st
            {| Service := service; Region := or_empty (current_region st);
               Description := desc; Usage_Quantity := qty; Usage_Unit := unit;
               Amount := a; Amount_Unit := "USD" |})
    /\ parse_amount amount = Ok a /\ truthy desc = true
    /\ ((exists m, search_qty (strip p0) = Some m /\ qty = group1 m /\ unit = group2 m
                   /\ desc = strip (firstn (m_start m) (strip p0)))
        \/ (search_qty (strip p0) = None /\ qty = [] /\ unit = [] /\ desc = strip p0)).
Proof.
  unfold usage_line.
  assert (Hparts : exists p0 amount,
             item (rsplit1 "USD" line) 0 = Ok p0 /\
             (if 1 <? length (rsplit1 "USD" line)
              then p1 <- item (rsplit1 "USD" line) 1 ;; Ok (lit "USD" ++ strip p1)
              else Ok []) = Ok amount).
  { destruct (rsplit1_shape "USD" line) as [E|(a & b & E)]; rewrite E;
      eexists; eexists; split; reflexivity. }
  destruct Hparts as (p0 & amount & -> & ->). cbn [bind].
  destruct (search_qty (strip p0)) as [m|] eqn:Em.
  - destruct (truthy (strip (firstn (m_start m) (strip p0)))) eqn:Hd; cbn [andb];
      [|left; reflexivity].
    destruct (truthy amount); [|left; reflexivity].
    destruct (parse_amount_ok amount) as (q & Hq & _). rewrite Hq. cbn [bind].
    right. exists p0, amount, q. eexists _, _, _.
    split; [reflexivity|]. split; [exact Hq|]. split; [exact Hd|].
    left. exists m. auto.
  - destruct (truthy (strip p0)) eqn:Hd; cbn [andb]; [|left; reflexivity].
    destruct (truthy amount); [|left; reflexivity].
    destruct (parse_amount_ok amount) as (q & Hq & _). rewrite Hq. cbn [bind].
    right. exists p0, amount, q. eexists _, _, _.
    split; [reflexivity|]. split; [exact Hq|]. split; [exact Hd|].
    right. auto.
Qed.

(** A line changes the records only through the usage-line branch. *)
Lemma step_usage_or_same (st : state) (line : str) :
  csv_data (step st line) = csv_data st
  \/ exists service,
       current_service st = Some service /\ truthy service = true
       /\ usage_line st service line = Ok (step st line).
Proof.
  unfold step, iteration.
  destruct (truthy line); cbn [negb]; [|left; reflexivity].
  destruct (contains "Charges by service" line); [left; reflexivity|].
  destruct (is_service_header_cases line)
    as [[-> _]|(svc & before & after & -> & Hin & _)]; cbn [bind named].
  2:{ rewrite (service_keywords_truthy _ Hin). left; reflexivity. }
  destruct (current_service st) as [service|] eqn:Hsvc; [|left; reflexivity].
  destruct (truthy service) eqn:Ht; [|left; reflexivity].
  destruct (is_region_header_cases line) as [[-> _]|(region & rtotal & -> & Hin & _)];
    cbn [bind named].
  2:{ rewrite (region_keywords_truthy _ Hin). left; reflexivity. }
  destruct (sub_service_prefix line).
  - destruct (contains "USD" line); [|left; reflexivity].
    destruct (rsplit1_shape "USD" line) as [E|(a & b & E)]; rewrite E; left; reflexivity.
  - destruct (contains "USD" line); [|left; reflexivity].
    right. exists service. split; [reflexivity|]. split; [exact Ht|].
    destruct (usage_line_cases st service line) as [E|(r & E & _)]; rewrite E; reflexivity.
Qed.

Section Usage_records.

Variable good : UsageRecord -> Prop.
Hypothesis good_usage :
  forall st service line st',
    truthy service = true -> usage_line st service line = Ok st' ->
    Forall good (csv_data st) -> Forall good (csv_data st').

Lemma run_records_good (lines : list str) (st : state) :
  Forall good (csv_data st) -> Forall good (csv_data (run st lines)).
Proof.
  revert st; induction lines as [|line lines IH]; intros st H; [exact H|].
  apply IH. destruct (step_usage_or_same st line) as [E|(service & _ & Ht & E)].
  - rewrite E. exact H.
  - exact (good_usage _ _ _ _ Ht E H).
Qed.

Lemma parse_records_good (lines : list str) (recs : list UsageRecord) (r : UsageRecord) :
  _parse_lines_to_csv_data lines = Ok recs -> In r recs -> good r.
Proof.
  rewrite parse_run. intros H; injection H as <-.
  assert (G : Forall good (csv_data (run initial lines)))
    by (apply run_records_good; constructor).
  rewrite Forall_forall in G. apply G.
Qed.

End Usage_records.

(** The Description of every emitted record is non-empty and carries no blank
    at either end. *)
Theorem description_nonempty_and_stripped (lines : list str)
        (recs : list UsageRecord) (r : UsageRecord) :
  _parse_lines_to_csv_data lines = Ok recs -> In r recs ->
  Description r <> [] /\ strip (Description r) = Description r.
Proof.
  apply (parse_records_good
           (fun r => Description r <> [] /\ strip (Description r) = Description r)).
  intros st service line st' _ E H.
  destruct (usage_line_record st service line)
    as [E'|(p0 & amount & a & qty & unit & desc & E' & _ & Hd & Hm)];
    rewrite E' in E; injection E as <-; [exact H|].
  cbn [append_record csv_data]. apply Forall_app. split; [exact H|].
  constructor; [|constructor]. cbn [Description]. split.
  - intros F; rewrite F in Hd; discriminate.
  - destruct Hm as [(m & _ & _ & _ & ->)|(_ & _ & _ & ->)]; apply strip_idem.
Qed.

(** In every emitted record Usage_Quantity is made of digits, commas and
    points only, and Usage_Unit of word characters, hyphens and slashes only. *)
Theorem quantity_and_unit_characters (lines : list str)
        (recs : list UsageRecord) (r : UsageRecord) :
  _parse_lines_to_csv_data lines = Ok recs -> In r recs ->
  forallb quantity_char (Usage_Quantity r) = true
  /\ forallb unit_char (Usage_Unit r) = true.
Proof.
  apply (parse_records_good
           (fun r => forallb quantity_char (Usage_Quantity r) = true
                     /\ forallb unit_char (Usage_Unit r) = true)).
  intros st service line st' _ E H.
  destruct (usage_line_record st service line)
    as [E'|(p0 & amount & a & qty & unit & desc & E' & _ & _ & Hm)];
    rewrite E' in E; injection E as <-; [exact H|].
  cbn [append_record csv_data]. apply Forall_app. split; [exact H|].
  constructor; [|constructor]. cbn [Usage_Quantity Usage_Unit].
  destruct Hm as [(m & Hs & -> & -> & _)|(_ & -> & -> & _)].
  - exact (search_qty_shape _ _ Hs).
  - split; reflexivity.
Qed.

(** ** Putting inputs together *)

Lemma append_with_records (recs : list UsageRecord) (st : state) (r : UsageRecord) :
  append_record (with_records recs st) r = with_records recs (append_record st r).
Proof. unfold append_record, with_records. cbn. rewrite app_assoc. reflexivity. Qed.

Lemma usage_line_with_records (recs : list UsageRecord) (st : state) (service line : str) :
  usage_line (with_records recs st) service line
  = st' <- usage_line st service line ;; Ok (with_records recs st').
Proof.
  unfold usage_line.
  destruct (item (rsplit1 "USD" line) 0) as [p0| |]; cbn [bind]; try reflexivity.
  destruct (if 1 <? length (rsplit1 "USD" line)
            then p1 <- item (rsplit1 "USD" line) 1 ;; Ok (lit "USD" ++ strip p1)
            else Ok []) as [amount| |]; cbn [bind]; try reflexivity.
  destruct (match search_qty (strip p0) with
            | Some m => (group1 m, group2 m, strip (firstn (m_start m) (strip p0)))
            | None => ([], [], strip p0)
            end) as [[qty unit] desc].
  destruct (truthy desc && truthy amount); [|reflexivity].
  destruct (parse_amount amount) as [a| |]; cbn [bind]; try reflexivity.
  rewrite append_with_records. reflexivity.
Qed.

(** Records already collected do not influence how a line is read. *)
Lemma step_with_records (recs : list UsageRecord) (st : state) (line : str) :
  step (with_records recs st) line = with_records recs (step st line).
Proof.
  unfold step, iteration. cbn [with_records current_service].
  destruct (truthy line); cbn [negb]; [|reflexivity].
  destruct (contains "Charges by service" line); [reflexivity|].
  destruct (is_service_header line) as [[svc_name svc_total]| |]; cbn [bind];
    try reflexivity.
  destruct (named svc_name); [reflexivity|].
  destruct (current_service st) as [service|]; [|reflexivity].
  destruct (truthy service); [|reflexivity].
  destruct (is_region_header line) as [[region_name region_total]| |]; cbn [bind];
    try reflexivity.
  destruct (named region_name); [reflexivity|].
  destruct (sub_service_prefix line).
  - destruct (contains "USD" line); [|reflexivity].
    destruct (item (rsplit1 "USD" line) 0); reflexivity.
  - destruct (contains "USD" line); [|reflexivity].
    rewrite usage_line_with_records.
    destruct (usage_line st service line); reflexivity.
Qed.

Lemma run_with_records (recs : list UsageRecord) (lines : list str) (st : state) :
  run (with_records recs st) lines = with_records recs (run st lines).
Proof.
  revert st; induction lines as [|line lines IH]; intros st; [reflexivity|].
  cbn [run fold_left]. rewrite step_with_records. apply IH.
Qed.

Lemma step_service_header (st : state) (line svc total : str) :
  contains "Charges by service" line = false ->
  is_service_header line = Ok (Some svc, Some total) ->
  step st line = enter_service st (Some svc) (Some total).
Proof.
  intros Hm Hh.
  destruct (is_service_header_cases line)
    as [[E _]|(svc0 & before & after & E & Hin & Hs & Hc & _)];
    rewrite E in Hh; [discriminate|]. injection Hh as <- <-.
  unfold step, iteration.
  assert (Ht : truthy line = true).
  { destruct line; [discriminate | reflexivity]. }
  rewrite Ht, Hm, E. cbn [negb bind named].
  rewrite (service_keywords_truthy _ Hin). reflexivity.
Qed.

(** Parsing two inputs one after the other, the second of which begins with a
    service header, gives the records of the first followed by the records of
    the second: nothing of the first input leaks into the second, so the
    joined result of separate documents is the parse of the joined lines. *)
Theorem parse_concat_at_service_header (lines1 lines2 : list str) (line svc total : str) :
  contains "Charges by service" line = false ->
  is_service_header line = Ok (Some svc, Some total) ->
  exists recs1 recs2,
    _parse_lines_to_csv_data lines1 = Ok recs1
    /\ _parse_lines_to_csv_data (line :: lines2) = Ok recs2
    /\ _parse_lines_to_csv_data (lines1 ++ line :: lines2) = Ok (recs1 ++ recs2).
Proof.
  intros Hm Hh.
  exists (csv_data (run initial lines1)), (csv_data (run initial (line :: lines2))).
  split; [apply parse_run|]. split; [apply parse_run|].
  rewrite parse_run, run_app. f_equal.
  set (st1 := run initial lines1).
  change (run st1 (line :: lines2)) with (run (step st1 line) lines2).
  change (run initial (line :: lines2)) with (run (step initial line) lines2).
  rewrite !(step_service_header _ _ _ _ Hm Hh).
  replace (enter_service st1 (Some svc) (Some total))
    with (with_records (csv_data st1) (enter_service initial (Some svc) (Some total))).
  - rewrite run_with_records. reflexivity.
  - unfold with_records, enter_service. cbn. rewrite app_nil_r. reflexivity.
Qed.

(** ** Sub-service headers *)

Lemma usage_line_same_but_sub (st1 st2 : state) (service line : str) :
  same_but_sub st1 st2 ->
  match usage_line st1 service line, usage_line st2 service line with
  | Ok a, Ok b => same_but_sub a b
  | Raise e1, Raise e2 => e1 = e2
  | OutOfFuel, OutOfFuel => True
  | _, _ => False
  end.
Proof.
  intros (H1 & H2 & H3 & H4). unfold usage_line.
  destruct (item (rsplit1 "USD" line) 0) as [p0| |]; cbn [bind]; trivial.
  destruct (if 1 <? length (rsplit1 "USD" line)
            then p1 <- item (rsplit1 "USD" line) 1 ;; Ok (lit "USD" ++ strip p1)
            else Ok []) as [amount| |]; cbn [bind]; trivial.
  destruct (match search_qty (strip p0) with
            | Some m => (group1 m, group2 m, strip (firstn (m_start m) (strip p0)))
            | None => ([], [], strip p0)
            end) as [[qty unit] desc].
  destruct (truthy desc && truthy amount); [|repeat split; assumption].
  destruct (parse_amount amount) as [a| |]; cbn [bind]; trivial.
  unfold same_but_sub. cbn. rewrite H1, H4. repeat split; assumption.
Qed.

(** [current_sub_service] is written and never read. *)
Lemma step_same_but_sub (st1 st2 : state) (line : str) :
  same_but_sub st1 st2 -> same_but_sub (step st1 line) (step st2 line).
Proof.
  intros H. pose proof H as (H1 & H2 & H3 & H4).
  unfold step, iteration.
  destruct (truthy line); cbn [negb]; [|exact H].
  destruct (contains "Charges by service" line); [exact H|].
  destruct (is_service_header line) as [[svc_name svc_total]| |]; cbn [bind];
    try exact H.
  destruct (named svc_name).
  { unfold same_but_sub. cbn. repeat split; congruence. }
  rewrite <- H2.
  destruct (current_service st1) as [service|] eqn:Hsvc; [|exact H].
  destruct (truthy service); [|exact H].
  destruct (is_region_header line) as [[region_name region_total]| |]; cbn [bind];
    try exact H.
  destruct (named region_name).
  { unfold same_but_sub. cbn. repeat split; congruence. }
  destruct (sub_service_prefix line).
  - destruct (contains "USD" line); [|exact H].
    destruct (item (rsplit1 "USD" line) 0); cbn [bind]; exact H.
  - destruct (contains "USD" line); [|exact H].
    pose proof (usage_line_same_but_sub st1 st2 service line H) as G.
    destruct (usage_line st1 service line), (usage_line st2 service line);
      cbn [bind]; try contradiction; assumption.
Qed.

Lemma run_same_but_sub (lines : list str) (st1 st2 : state) :
  same_but_sub st1 st2 -> same_but_sub (run st1 lines) (run st2 lines).
Proof.
  revert st1 st2; induction lines as [|line lines IH]; intros st1 st2 H; [exact H|].
  apply IH, step_same_but_sub, H.
Qed.

(** A sub-service header line (one with a sub-service prefix that is neither a
    service header nor a region header) never changes the flat records: the
    result is that of the input without the line. *)
Theorem sub_service_header_leaves_records (pre post : list str) (line : str) :
  sub_service_prefix line = true ->
  is_service_header line = Ok (None, None) ->
  is_region_header line = Ok (None, None) ->
  _parse_lines_to_csv_data (pre ++ line :: post)
  = _parse_lines_to_csv_data (pre ++ post).
Proof.
  intros Hp Hs Hr. rewrite !parse_run, !run_app. f_equal.
  set (st := run initial pre).
  change (run st (line :: post)) with (run (step st line) post).
  apply run_same_but_sub.
  unfold step, iteration.
  destruct (truthy line); cbn [negb]; [|repeat split].
  destruct (contains "Charges by service" line); [repeat split|].
  rewrite Hs. cbn [bind named].
  destruct (current_service st) as [service|]; [|repeat split].
  destruct (truthy service); [|repeat split].
  rewrite Hr, Hp. cbn [bind named].
  destruct (contains "USD" line); [|repeat split].
  destruct (rsplit1_shape "USD" line) as [E|(a & b & E)]; rewrite E; repeat split.
Qed.

(** ** The lines read from the pages *)

Lemma split_char_parts (c : ascii) (s p : str) :
  In p (split [c] s) -> ~ In c p.
Proof.
  unfold split. revert p; induction s as [|x s IH]; intros p H.
  - destruct H as [<-|[]]. intros [].
  - cbn [split_from startswith length Nat.sub] in H.
    destruct (ascii_dec x c) as [->|Hx].
    + destruct H as [<-|H]; [intros [] | exact (IH _ H)].
    + destruct (split_from [c] s 0) as [|q qs] eqn:E.
      * destruct H as [<-|[]]. intros [F|[]]. congruence.
      * destruct H as [<-|H].
        -- intros [F|F]; [congruence|]. exact (IH q (or_introl eq_refl) F).
        -- exact (IH p (or_intror H)).
Qed.

Lemma in_lstrip (s : str) (c : ascii) : In c (lstrip s) -> In c s.
Proof.
  destruct (lstrip_split s) as (w & E & _). intros H. rewrite E.
  apply in_or_app. right; exact H.
Qed.

Lemma in_strip (s : str) (c : ascii) : In c (strip s) -> In c s.
Proof.
  unfold strip. intros H. apply in_lstrip.
  destruct (rstrip_prefix (lstrip s)) as [w E]. rewrite E.
  apply in_or_app. left; exact H.
Qed.

(** Every line that [_read_pdf_lines] hands on is stripped, so it has no blank
    at either end, and holds no line feed. *)
Theorem read_lines_stripped (page_texts : list (option str)) (line : str) :
  In line (_read_pdf_lines page_texts) ->
  strip line = line /\ ~ In (ascii_of_nat 10) line.
Proof.
  induction page_texts as [|text rest IH]; [intros []|].
  cbn [_read_pdf_lines]. intros H. apply in_app_or in H as [H|H]; [|exact (IH H)].
  destruct (named text); [|destruct H].
  apply in_map_iff in H as (p & <- & Hp). split; [apply strip_idem|].
  intros F. apply in_strip in F. exact (split_char_parts _ _ _ Hp F).
Qed.

(** A page text of two lines with blanks around them. *)
Lemma read_lines_stripped_witness :
  In (lit "Lambda USD 12.00")
     (_read_pdf_lines [Some (lit "  Lambda USD 12.00 " ++ newline ++ lit " Any"); None])
  /\ strip (lit "Lambda USD 12.00") = lit "Lambda USD 12.00"
  /\ ~ In (ascii_of_nat 10) (lit "Lambda USD 12.00").
Proof.
  assert (H : In (lit "Lambda USD 12.00")
                 (_read_pdf_lines
                    [Some (lit "  Lambda USD 12.00 " ++ newline ++ lit " Any"); None]))
    by (vm_compute; left; reflexivity).
  split; [exact H|].
  exact (read_lines_stripped _ _ H).
Defined.

(** ** The upload filter *)

Lemma str_eqb_eq (a b : str) : str_eqb a b = true <-> a = b.
Proof.
  unfold str_eqb. destruct (list_eq_dec ascii_dec a b); split; congruence.
Qed.

Lemma rfind_absent (c : ascii) (s : str) : ~ In c s -> rfind [c] s = None.
Proof.
  intros H. destruct (rfind [c] s) as [k|] eqn:E; [|reflexivity].
  exfalso. apply H. rewrite (rfind_occurs _ _ _ E).
  apply in_or_app. right. left. reflexivity.
Qed.

Lemma rfind_last_char (c : ascii) (a b : str) :
  ~ In c b -> rfind [c] (a ++ c :: b) = Some (length a).
Proof.
  intros H. induction a as [|x a IH].
  - cbn [app rfind length]. rewrite (rfind_absent _ _ H).
    cbn [startswith]. destruct (ascii_dec c c); [reflexivity | congruence].
  - cbn [app rfind length]. rewrite IH. reflexivity.
Qed.

Lemma rsplit1_last_char (c : ascii) (a b : str) :
  ~ In c b -> rsplit1 [c] (a ++ c :: b) = [a; b].
Proof.
  intros H. unfold rsplit1. rewrite (rfind_last_char _ _ _ H).
  rewrite firstn_length_app. cbn [length].
  replace (a ++ c :: b) with ((a ++ [c]) ++ b) by (rewrite <- app_assoc; reflexivity).
  replace (length a + 1) with (length (a ++ [c])) by (rewrite length_app; reflexivity).
  rewrite skipn_length_app. reflexivity.
Qed.

Lemma lower_pdf_no_dot (ext : str) : lower ext = lit "pdf" -> ~ In "."%char ext.
Proof.
  intros H F. apply (in_map lower_char) in F. fold (lower ext) in F. rewrite H in F.
  vm_compute in F. destruct F as [F|[F|[F|[]]]]; discriminate.
Qed.

(** [allowed_file] never raises, and it accepts a name exactly when the text
    after its last point is "pdf" in any mix of upper and lower case. *)
Theorem allowed_file_pdf_extension (filename : str) :
  (exists b, allowed_file filename = Ok b)
  /\ (allowed_file filename = Ok true <->
      exists base ext, filename = base ++ lit "." ++ ext /\ lower ext = lit "pdf").
Proof.
  unfold allowed_file. destruct (contains "." filename) eqn:Hc.
  - destruct (rsplit1_two _ _ Hc) as (a & b & E & Ef). rewrite E.
    cbn [item nth_error bind ALLOWED_EXTENSIONS existsb]. rewrite orb_false_r.
    split; [eauto|]. split.
    + intros H. injection H as H. apply str_eqb_eq in H. exists a, b. auto.
    + intros (base & ext & Eb & Hl).
      pose proof (rsplit1_last_char "."%char base ext (lower_pdf_no_dot _ Hl)) as R.
      change (base ++ "."%char :: ext) with (base ++ lit "." ++ ext) in R.
      rewrite <- Eb in R. change [("."%char)] with (lit ".") in R.
      rewrite E in R. injection R as -> ->.
      f_equal. apply str_eqb_eq. exact Hl.
  - split; [eauto|]. split; [discriminate|].
    intros (base & ext & -> & _). rewrite contains_app in Hc. discriminate.
Qed.

(** ** The preview *)

(** The rows have no key ['Amount_USD'], so the summary is never completed:
    with no rows [preview_data] answers 400, and with rows the loop raises
    [KeyError] at the first one and the answer is 500; a preview is never
    returned. *)
Theorem preview_never_succeeds (csv_data : list UsageRecord) :
  (forall s, summarize csv_data s
             = match csv_data with
               | [] => Returned s
               | _ :: _ => Failed (KeyError "Amount_USD")
               end)
  /\ preview_of csv_data
     = Error_response (match csv_data with [] => 400 | _ :: _ => 500 end).
Proof.
  destruct csv_data as [|row rows]; split; reflexivity.
Qed.

(** ** The report loop *)

Lemma usage_item_ok (line : str) :
  contains "USD" line = true -> exists it, Report.usage_item line = Ok it.
Proof.
  intros Hc. unfold Report.usage_item.
  destruct (rsplit1_two _ _ Hc) as (a & b & -> & _).
  cbn [item nth_error bind length Nat.ltb Nat.leb].
  destruct (search_qty (strip a)) as [m|];
    match goal with |- context [if ?c then _ else _] => destruct c end; eauto.
Qed.

(** Every pass through the body of the report loop succeeds and moves the
    index on by one. *)
Lemma report_iteration_step (i : nat) (st : Report.state) (line : str) :
  Report.iteration i st line = Ok (S i, Report.step st line).
Proof.
  assert (H : exists st', forall j, Report.iteration j st line = Ok (S j, st')).
  { unfold Report.iteration.
    destruct (truthy line); cbn [negb]; [|eauto].
    destruct (contains "Charges by service" line); [eauto|].
    destruct (is_service_header_cases line)
      as [[-> _]|(svc & before & after & -> & Hin & _)]; cbn [bind named].
    2:{ rewrite (service_keywords_truthy _ Hin). eauto. }
    destruct (Report.current_service st) as [service|]; [|eauto].
    destruct (truthy service); [|eauto].
    destruct (is_region_header_cases line) as [[-> _]|(region & rtotal & -> & Hin & _)];
      cbn [bind named].
    2:{ rewrite (region_keywords_truthy _ Hin). eauto. }
    destruct (sub_service_prefix line).
    - destruct (contains "USD" line) eqn:Hc; [|eauto].
      destruct (rsplit1_two _ _ Hc) as (a & b & -> & _).
      cbn [item nth_error bind]. eauto.
    - destruct (contains "USD" line) eqn:Hc; [|eauto].
      destruct (usage_item_ok _ Hc) as [it ->]. cbn [bind]. eauto. }
  destruct H as [st' H]. unfold Report.step. rewrite (H 0). apply H.
Qed.

Lemma report_loop_run (fuel : nat) (lines : list str) (i : nat) (st : Report.state) :
  length lines - i <= fuel ->
  Report.loop fuel lines i st = Ok (Report.run st (skipn i lines)).
Proof.
  revert i st; induction fuel as [|fuel IH]; intros i st H.
  - cbn [Report.loop]. destruct (i <? length lines) eqn:Hi.
    + apply Nat.ltb_lt in Hi. lia.
    + apply Nat.ltb_ge in Hi. rewrite skipn_all2 by exact Hi. reflexivity.
  - cbn [Report.loop]. destruct (i <? length lines) eqn:Hi.
    + apply Nat.ltb_lt in Hi.
      destruct (item_skipn lines i Hi) as (line & rest & -> & E1 & E2).
      cbn [bind]. rewrite report_iteration_step. cbn [bind fst snd].
      rewrite IH by lia. rewrite E1, E2. reflexivity.
    + apply Nat.ltb_ge in Hi. rewrite skipn_all2 by exact Hi. reflexivity.
Qed.

Lemma report_parse_run (lines : list str) :
  Report._parse_lines_blocks lines
  = Ok (Report.flush (Report.run Report.initial lines)).
Proof.
  unfold Report._parse_lines_blocks. rewrite report_loop_run by lia. reflexivity.
Qed.

Lemma items_of_app (service : option str) (a b : list Report.entry) :
  Report.items_of service (a ++ b) = Report.items_of service a ++ Report.items_of service b.
Proof. apply flat_map_app. Qed.

Lemma report_items_app (a b : list Report.block) :
  Report.report_items (a ++ b) = Report.report_items a ++ Report.report_items b.
Proof. apply flat_map_app. Qed.

(** Flushing moves the pending items into the blocks and loses none. *)
Lemma report_items_flush (rs : Report.state) :
  (Report.service_lines rs <> [] -> named (Report.current_service rs) = true) ->
  Report.report_items (Report.flush rs)
  = Report.report_items (Report.result rs)
    ++ Report.items_of (Report.current_service rs) (Report.service_lines rs).
Proof.
  intros H. unfold Report.flush.
  destruct (Report.service_lines rs) as [|e es] eqn:E.
  - rewrite andb_false_r. cbn. rewrite app_nil_r. reflexivity.
  - rewrite H by discriminate. cbn [andb].
    rewrite report_items_app. cbn [Report.report_items flat_map Report.block_service
                                     Report.block_lines]. rewrite app_nil_r. reflexivity.
Qed.

(** The two loops stay in step over any line. *)
Ltac unchanged := repeat split; first [assumption | congruence].

Lemma in_step_step (st : state) (rs : Report.state) (line : str) :
  in_step st rs -> in_step (step st line) (Report.step rs line).
Proof.
  intros (H1 & H2 & H3).
  unfold step, Report.step, iteration, Report.iteration.
  destruct (truthy line); cbn [negb]; [|unchanged].
  destruct (contains "Charges by service" line); [unchanged|].
  destruct (is_service_header_cases line)
    as [[-> _]|(svc & before & after & -> & Hin & _)]; cbn [bind named].
  2:{ rewrite (service_keywords_truthy _ Hin).
      split; [reflexivity|]. split; [intros F; exfalso; apply F; reflexivity|].
      cbn [Report.result Report.service_lines Report.current_service
           Report.items_of flat_map csv_data enter_service].
      rewrite app_nil_r, (report_items_flush _ H2). exact H3. }
  rewrite <- H1.
  destruct (current_service st) as [service|] eqn:Hsvc; [|unchanged].
  destruct (truthy service) eqn:Ht; [|unchanged].
  assert (Hnamed : named (Report.current_service rs) = true)
    by (rewrite <- H1; exact Ht).
  destruct (is_region_header_cases line) as [[-> _]|(region & rtotal & -> & Hin & _)];
    cbn [bind named].
  2:{ rewrite (region_keywords_truthy _ Hin).
      split; [cbn; congruence|]. split; [intros _; exact Hnamed|].
      cbn [Report.add_line Report.result Report.service_lines Report.current_service
           csv_data enter_region].
      rewrite items_of_app. cbn [Report.items_of flat_map]. rewrite !app_nil_r. exact H3. }
  destruct (sub_service_prefix line).
  - destruct (contains "USD" line) eqn:Hc; [|unchanged].
    destruct (rsplit1_two _ _ Hc) as (a & b & -> & _).
    cbn [item nth_error bind].
    split; [cbn; congruence|]. split; [intros _; exact Hnamed|].
    cbn [Report.add_line Report.result Report.service_lines Report.current_service
         csv_data enter_sub_service].
    rewrite items_of_app. cbn [Report.items_of flat_map]. rewrite !app_nil_r. exact H3.
  - destruct (contains "USD" line) eqn:Hc; [|unchanged].
    unfold usage_line, Report.usage_item.
    destruct (rsplit1_two _ _ Hc) as (a & b & -> & _).
    cbn [item nth_error bind length Nat.ltb Nat.leb].
    destruct (parse_amount_ok (lit "USD" ++ strip b)) as (q & Hq & _).
    destruct (search_qty (strip a)) as [m|] eqn:Em.
    + destruct (truthy (strip (firstn (m_start m) (strip a)))); cbn [andb bind];
        [|unchanged].
      change (truthy (lit "USD" ++ strip b)) with true.
      rewrite Hq. cbn [bind].
      split; [cbn; congruence|]. split; [intros _; exact Hnamed|].
      cbn [Report.add_line Report.result Report.service_lines Report.current_service
           csv_data append_record].
      rewrite items_of_app, app_assoc. apply Forall2_app; [exact H3|].
      cbn [Report.items_of flat_map app]. constructor; [|constructor].
      unfold same_usage, quantity_text. cbn [Service Description Usage_Quantity
                                                Usage_Unit Amount].
      destruct (search_qty_groups _ _ Em) as [G1 _]. rewrite G1.
      rewrite <- H1. repeat split. exact Hq.
    + destruct (truthy (strip a)); cbn [andb bind]; [|unchanged].
      change (truthy (lit "USD" ++ strip b)) with true.
      rewrite Hq. cbn [bind].
      split; [cbn; congruence|]. split; [intros _; exact Hnamed|].
      cbn [Report.add_line Report.result Report.service_lines Report.current_service
           csv_data append_record].
      rewrite items_of_app, app_assoc. apply Forall2_app; [exact H3|].
      cbn [Report.items_of flat_map app]. constructor; [|constructor].
      unfold same_usage, quantity_text. cbn [Service Description Usage_Quantity
                                                Usage_Unit Amount truthy].
      rewrite <- H1. repeat split. exact Hq.
Qed.

Lemma in_step_run (lines : list str) (st : state) (rs : Report.state) :
  in_step st rs -> in_step (run st lines) (Report.run rs lines).
Proof.
  revert st rs; induction lines as [|line lines IH]; intros st rs H; [exact H|].
  apply IH, in_step_step, H.
Qed.

(** The report and the flat records say the same: [_parse_lines] never raises,
    and the items of its blocks, in order, are the flat records of
    [_parse_lines_to_csv_data] one for one, with the same service and
    description, quantity and unit joined by a space, and an amount text whose
    value is the Amount of the record. *)
Theorem report_items_are_the_records (lines : list str) :
  exists blocks recs,
    Report._parse_lines_blocks lines = Ok blocks
    /\ _parse_lines_to_csv_data lines = Ok recs
    /\ Forall2 same_usage (Report.report_items blocks) recs.
Proof.
  eexists _, _. split; [apply report_parse_run|]. split; [apply parse_run|].
  assert (H : in_step (run initial lines) (Report.run Report.initial lines)).
  { apply in_step_run. split; [reflexivity|]. split; [intros F; contradiction|].
    constructor. }
  destruct H as (_ & H2 & H3). rewrite (report_items_flush _ H2). exact H3.
Qed.

Lemma flush_printable (rs : Report.state) :
  report_known rs -> Forall printable (Report.flush rs).
Proof.
  intros [Hs Hr]. unfold Report.flush.
  destruct (Report.current_service rs) as [svc|] eqn:E; cbn [named]; [|exact Hr].
  destruct (truthy svc); cbn [andb]; [|exact Hr].
  destruct (Report.service_lines rs) as [|e es] eqn:El; [exact Hr|].
  apply Forall_app. split; [exact Hr|]. constructor; [|constructor].
  split; cbn; [|discriminate]. exists svc. split; [reflexivity | apply Hs; reflexivity].
Qed.

Lemma report_known_step (rs : Report.state) (line : str) :
  report_known rs -> report_known (Report.step rs line).
Proof.
  intros H. pose proof H as [Hs Hr].
  unfold Report.step, Report.iteration.
  destruct (truthy line); cbn [negb]; [|exact H].
  destruct (contains "Charges by service" line); [exact H|].
  destruct (is_service_header_cases line)
    as [[-> _]|(svc & before & after & -> & Hin & _)]; cbn [bind named].
  2:{ rewrite (service_keywords_truthy _ Hin). split; cbn.
      - intros s E; injection E as <-; exact Hin.
      - apply flush_printable, H. }
  destruct (Report.current_service rs) as [service|]; [|exact H].
  destruct (truthy service); [|exact H].
  destruct (is_region_header_cases line) as [[-> _]|(region & rtotal & -> & Hin & _)];
    cbn [bind named].
  2:{ rewrite (region_keywords_truthy _ Hin). exact H. }
  destruct (sub_service_prefix line).
  - destruct (contains "USD" line) eqn:Hc; [|exact H].
    destruct (rsplit1_two _ _ Hc) as (a & b & -> & _).
    cbn [item nth_error bind]. exact H.
  - destruct (contains "USD" line) eqn:Hc; [|exact H].
    destruct (usage_item_ok _ Hc) as [[e|] ->]; cbn [bind]; exact H.
Qed.

(** Every block of the report stands for a known service and has at least one
    line under its heading: a service header with nothing recorded before the
    next header, or before the end, is left out of the report. *)
Theorem report_blocks_printable (lines : list str) (blocks : list Report.block)
        (b : Report.block) :
  Report._parse_lines_blocks lines = Ok blocks -> In b blocks ->
  (exists svc, Report.block_service b = Some svc /\ In svc SERVICE_KEYWORDS)
  /\ Report.block_lines b <> [].
Proof.
  rewrite report_parse_run. intros H; injection H as <-.
  assert (K : forall ls rs, report_known rs -> report_known (Report.run rs ls)).
  { induction ls as [|l ls IH]; intros rs Hk; [exact Hk|].
    apply IH, report_known_step, Hk. }
  assert (G : Forall printable (Report.flush (Report.run Report.initial lines))).
  { apply flush_printable, K. split; [discriminate | constructor]. }
  rewrite Forall_forall in G. apply G.
Qed.

(** ** Reading an amount *)

(** On digits, a point and digits the amount pattern takes everything. *)
Lemma match_amount_plain (whole frac rest : str) :
  forallb is_digit whole = true -> truthy whole = true ->
  forallb is_digit frac = true ->
  match rest with [] => true | c :: _ => negb (is_digit c) end = true ->
  match_here amount_re false (whole ++ lit "." ++ frac ++ rest)
  = Some [length whole; 1; length frac].
Proof.
  intros Hw Ht Hf Hr. unfold amount_re. cbn [match_here at_least at_most].
  assert (Hw' : forallb digit_or_comma whole = true).
  { rewrite forallb_forall in *. intros c Hc. unfold digit_or_comma.
    rewrite (Hw c Hc). reflexivity. }
  change (lit "." ++ frac ++ rest) with ("."%char :: frac ++ rest).
  rewrite (run_length_stop digit_or_comma whole "."%char (frac ++ rest) Hw' eq_refl).
  apply backtrack_first; [destruct whole; [discriminate | cbn; lia]|].
  rewrite skipn_length_app.
  assert (E1 : at_most Opt (run_length (is_char ".") ("."%char :: frac ++ rest)) = 1).
  { cbn [at_most run_length is_char]. destruct (ascii_dec "." "."); [|congruence].
    destruct (run_length _ _); reflexivity. }
  cbn [at_most] in E1. rewrite E1.
  rewrite (backtrack_first _ 0 1 [1; length frac]); [reflexivity | lia |].
  cbn [skipn].
  assert (E2 : run_length is_digit (frac ++ rest) = length frac).
  { destruct rest as [|c rest].
    - rewrite app_nil_r. apply run_length_all, Hf.
    - apply run_length_stop; [exact Hf|]. apply negb_true_iff, Hr. }
  rewrite E2. rewrite (backtrack_first _ 0 (length frac) [length frac]);
    [reflexivity | lia | reflexivity].
Qed.

Lemma remove_char_app (x : string) (a b : str) :
  remove_char x (a ++ b) = remove_char x a ++ remove_char x b.
Proof. apply filter_app. Qed.

Lemma remove_comma_digits (s : str) : forallb is_digit s = true -> remove_char "," s = s.
Proof.
  intros H. apply remove_char_none. intros c Hc.
  rewrite forallb_forall in H. specialize (H c Hc).
  unfold is_char. destruct (ascii_dec c ",") as [->|]; [discriminate | reflexivity].
Qed.

Lemma remove_comma_leaves_digits (s : str) :
  forallb digit_or_comma s = true -> forallb is_digit (remove_char "," s) = true.
Proof.
  intros H. apply digits_without_comma.
  - rewrite forallb_forall in *. intros c Hc. apply H.
    unfold remove_char in Hc. apply filter_In in Hc. tauto.
  - intros c Hc. exact (remove_char_gone _ _ _ Hc).
Qed.

(** An amount written as "USD", digits with thousands separators, a point and
    digits is read as the float of that number: the commas are dropped and
    the answer is the binary64 nearest to the digits over the power of ten of
    the fractional length. *)
Theorem parse_amount_reads_plain_amount (whole frac : str) :
  forallb digit_or_comma whole = true ->
  truthy (remove_char "," whole) = true ->
  forallb is_digit frac = true ->
  parse_amount (lit "USD" ++ whole ++ lit "." ++ frac)
  = Ok (binary64_of_decimal (digits_value (remove_char "," whole ++ frac))
          (length frac)).
Proof.
  intros Hw Ht Hf.
  set (w := remove_char "," whole) in *.
  assert (Hd : forallb is_digit w = true) by (apply remove_comma_leaves_digits, Hw).
  unfold parse_amount.
  change (truthy (lit "USD" ++ whole ++ lit "." ++ frac)) with true. cbn [negb].
  rewrite !remove_char_app. fold w.
  rewrite (remove_comma_digits frac Hf).
  change (remove_char "," (lit "USD")) with (lit "USD").
  change (remove_char "," (lit ".")) with (lit ".").
  assert (Hs : search_amount (lit "USD" ++ w ++ lit "." ++ frac)
               = Some (w ++ lit "." ++ frac)).
  { unfold search_amount, search.
    pose proof (match_amount_plain w frac [] Hd Ht Hf eq_refl) as M.
    rewrite app_nil_r in M.
    change (lit "USD" ++ w ++ lit "." ++ frac)
      with ("U"%char :: "S"%char :: "D"%char :: w ++ lit "." ++ frac).
    cbn [search_from]. 
    change (match_here amount_re false
              ("U"%char :: "S"%char :: "D"%char :: w ++ lit "." ++ frac)) with (@None (list nat)).
    change (match_here amount_re false
              ("S"%char :: "D"%char :: w ++ lit "." ++ frac)) with (@None (list nat)).
    change (match_here amount_re false
              ("D"%char :: w ++ lit "." ++ frac)) with (@None (list nat)).
    cbn iota. rewrite (search_from_here _ _ _ 3 _ M).
    cbn [skipn list_sum fold_right].
    f_equal. rewrite Nat.add_0_r.
    replace (length w + (1 + length frac)) with (length (w ++ lit "." ++ frac)).
    - apply firstn_all.
    - rewrite !length_app. reflexivity. }
  rewrite Hs.
  rewrite !remove_char_app, (remove_comma_digits w Hd), (remove_comma_digits frac Hf).
  change (remove_char "," (lit ".")) with (lit ".").
  change (lit "." ++ frac) with ("."%char :: frac).
  apply float_point; assumption.
Qed.

(** The amount text "USD1,234.56". *)
Lemma parse_amount_reads_plain_amount_witness :
  forallb digit_or_comma (lit "1,234") = true
  /\ truthy (remove_char "," (lit "1,234")) = true
  /\ forallb is_digit (lit "56") = true
  /\ parse_amount (lit "USD" ++ lit "1,234" ++ lit "." ++ lit "56")
     = Ok (binary64_of_decimal
             (digits_value (remove_char "," (lit "1,234") ++ lit "56"))
             (length (lit "56")))
  /\ binary64_of_decimal (digits_value (remove_char "," (lit "1,234") ++ lit "56"))
       (length (lit "56"))
     = S754_finite false 5429652300748554 (-42).
Proof.
  split; [reflexivity|]. split; [reflexivity|]. split; [reflexivity|].
  split; [|vm_compute; reflexivity].
  apply (parse_amount_reads_plain_amount (lit "1,234") (lit "56")); reflexivity.
Defined.

(** ** Lines that are skipped *)

Lemma run_normalized (lines : list str) (st : state) :
  run st (normalized lines) = run st lines.
Proof.
  revert st; induction lines as [|line lines IH]; intros st; [reflexivity|].
  unfold normalized. cbn [filter].
  destruct (truthy line && negb (contains "Charges by service" line)) eqn:E.
  - cbn [run fold_left]. apply IH.
  - cbn [run fold_left]. rewrite (step_skipped _ _ E). apply IH.
Qed.

(** Empty lines and lines with the marker "Charges by service" count for
    nothing, wherever they stand: the parse of an input is the parse of its
    normalized lines. *)
Theorem parse_of_normalized (lines : list str) :
  _parse_lines_to_csv_data (normalized lines) = _parse_lines_to_csv_data lines.
Proof. rewrite !parse_run, run_normalized. reflexivity. Qed.

(** ** The further properties at concrete inputs *)

(** The description of the record of the example. *)
Lemma description_nonempty_and_stripped_witness :
  _parse_lines_to_csv_data example_lines = Ok [example_record]
  /\ In example_record [example_record]
  /\ Description example_record <> []
  /\ strip (Description example_record) = Description example_record.
Proof.
  assert (H1 : _parse_lines_to_csv_data example_lines = Ok [example_record])
    by (vm_compute; reflexivity).
  assert (H2 : In example_record [example_record]) by (left; reflexivity).
  split; [exact H1|]. split; [exact H2|].
  exact (description_nonempty_and_stripped example_lines [example_record]
           example_record H1 H2).
Defined.

(** The quantity and unit of the record of the example. *)
Lemma quantity_and_unit_characters_witness :
  _parse_lines_to_csv_data example_lines = Ok [example_record]
  /\ In example_record [example_record]
  /\ forallb quantity_char (Usage_Quantity example_record) = true
  /\ forallb unit_char (Usage_Unit example_record) = true.
Proof.
  assert (H1 : _parse_lines_to_csv_data example_lines = Ok [example_record])
    by (vm_compute; reflexivity).
  assert (H2 : In example_record [example_record]) by (left; reflexivity).
  split; [exact H1|]. split; [exact H2|].
  exact (quantity_and_unit_characters example_lines [example_record]
           example_record H1 H2).
Defined.

(** The example followed by a second statement that begins with "Tax". *)
Lemma parse_concat_at_service_header_witness :
  contains "Charges by service" "Tax USD 1.00" = false
  /\ is_service_header "Tax USD 1.00" = Ok (Some (lit "Tax"), Some (lit "USD1.00"))
  /\ exists recs1 recs2,
       _parse_lines_to_csv_data example_lines = Ok recs1
       /\ _parse_lines_to_csv_data (lit "Tax USD 1.00" :: [lit "fee USD 2.00"]) = Ok recs2
       /\ _parse_lines_to_csv_data
            (example_lines ++ lit "Tax USD 1.00" :: [lit "fee USD 2.00"])
          = Ok (recs1 ++ recs2).
Proof.
  assert (H1 : contains "Charges by service" "Tax USD 1.00" = false)
    by (vm_compute; reflexivity).
  assert (H2 : is_service_header "Tax USD 1.00"
               = Ok (Some (lit "Tax"), Some (lit "USD1.00")))
    by (vm_compute; reflexivity).
  split; [exact H1|]. split; [exact H2|].
  exact (parse_concat_at_service_header example_lines [lit "fee USD 2.00"]
           "Tax USD 1.00" "Tax" "USD1.00" H1 H2).
Defined.

(** The sub-service header of the example, taken out. *)
Lemma sub_service_header_leaves_records_witness :
  sub_service_prefix "Amazon Lambda Requests USD 12.00" = true
  /\ is_service_header "Amazon Lambda Requests USD 12.00" = Ok (None, None)
  /\ is_region_header "Amazon Lambda Requests USD 12.00" = Ok (None, None)
  /\ _parse_lines_to_csv_data
       ([lit "Lambda USD 12.00"; lit "Asia Pacific (Seoul) USD 12.00"]
        ++ lit "Amazon Lambda Requests USD 12.00"
        :: [lit "$0.0000002 per request 60,000,000 Requests USD 12.00"])
     = _parse_lines_to_csv_data
         ([lit "Lambda USD 12.00"; lit "Asia Pacific (Seoul) USD 12.00"]
          ++ [lit "$0.0000002 per request 60,000,000 Requests USD 12.00"]).
Proof.
  assert (H1 : sub_service_prefix "Amazon Lambda Requests USD 12.00" = true)
    by (vm_compute; reflexivity).
  assert (H2 : is_service_header "Amazon Lambda Requests USD 12.00" = Ok (None, None))
    by (vm_compute; reflexivity).
  assert (H3 : is_region_header "Amazon Lambda Requests USD 12.00" = Ok (None, None))
    by (vm_compute; reflexivity).
  split; [exact H1|]. split; [exact H2|]. split; [exact H3|].
  exact (sub_service_header_leaves_records
           [lit "Lambda USD 12.00"; lit "Asia Pacific (Seoul) USD 12.00"]
           [lit "$0.0000002 per request 60,000,000 Requests USD 12.00"]
           "Amazon Lambda Requests USD 12.00" H1 H2 H3).
Defined.

(** The block of the report for the example. *)
Lemma report_blocks_printable_witness :
  Report._parse_lines_blocks example_lines = Ok [example_block]
  /\ In example_block [example_block]
  /\ (exists svc, Report.block_service example_block = Some svc
                  /\ In svc SERVICE_KEYWORDS)
  /\ Report.block_lines example_block <> [].
Proof.
  assert (H1 : Report._parse_lines_blocks example_lines = Ok [example_block])
    by (vm_compute; reflexivity).
  assert (H2 : In example_block [example_block]) by (left; reflexivity).
  split; [exact H1|]. split; [exact H2|].
  exact (report_blocks_printable example_lines [example_block] example_block H1 H2).
Defined.

(** ** A record and the line it comes from *)












